(** * CostDataRetriever: the EC2 utilisation lambda, embedded and verified

    The development follows [src/CostDataRetriever/lambda_function.py]:

    - Python values are a tagged union [value]; a [dict] is an association
      list in insertion order, a [float] is a binary64 number;
    - exceptions and the calls to the outside (the two boto3 clients, the
      clock, [print]) go through a small monad [M] that threads the log of
      calls made so far and either returns or raises;
    - [json.dumps] and [json.loads] are written out on character strings.

    Strings are Rocq strings: one character per code point, code points
    U+0000 to U+00FF. *)

From Stdlib Require Import ZArith List String Ascii Bool Lia Floats.
Import ListNotations.
Open Scope list_scope.
Open Scope string_scope.
Open Scope Z_scope.

(** ** Characters and decimal numerals *)

Definition char_code (c : ascii) : Z := Z.of_N (N_of_ascii c).

Definition char_of_code (n : Z) : ascii := ascii_of_N (Z.to_N n).

(** The double quote character, U+0022. *)
Definition dquote : ascii := "034"%char.

Definition backslash : ascii := "\"%char.

Definition str1 (c : ascii) : string := String c EmptyString.

Definition Zlength (s : string) : Z := Z.of_nat (String.length s).

Definition digit_char (d : Z) : ascii := char_of_code (48 + d).

Definition is_digit (c : ascii) : bool :=
  (48 <=? char_code c) && (char_code c <=? 57).

Definition digit_value (c : ascii) : Z := char_code c - 48.

Fixpoint digits_loop (fuel : nat) (n : Z) (acc : string) : string :=
  match fuel with
  | O => acc
  | S fuel' =>
      let acc' := String (digit_char (n mod 10)) acc in
      if n <? 10 then acc' else digits_loop fuel' (n / 10) acc'
  end.

(** The decimal digits of [n >= 0], most significant first. *)
Definition digits_of_Z (n : Z) : string :=
  digits_loop (S (Z.to_nat (Z.log2 n))) n "".

(** [str(z)] for a Python int. *)
Definition string_of_Z (z : Z) : string :=
  if z <? 0 then String "-" (digits_of_Z (- z)) else digits_of_Z z.

(** The number a string of decimal digits denotes, read left to right. *)
Fixpoint Z_of_digits (s : string) (acc : Z) : Z :=
  match s with
  | EmptyString => acc
  | String c s' => Z_of_digits s' (10 * acc + digit_value c)
  end.

Definition hex_char (d : Z) : ascii :=
  if d <? 10 then char_of_code (48 + d) else char_of_code (87 + d).

Definition hex_value (c : ascii) : option Z :=
  let n := char_code c in
  if (48 <=? n) && (n <=? 57) then Some (n - 48)
  else if (97 <=? n) && (n <=? 102) then Some (n - 87)
  else if (65 <=? n) && (n <=? 70) then Some (n - 55)
  else None.

Fixpoint repeat_char (c : ascii) (n : nat) : string :=
  match n with
  | O => ""
  | S n' => String c (repeat_char c n')
  end.

Fixpoint strip_zeros (s : list ascii) : list ascii :=
  match s with
  | "0"%char :: s' => strip_zeros s'
  | _ => s
  end.

Definition strip_trailing_zeros (s : string) : string :=
  string_of_list_ascii (rev (strip_zeros (rev (list_ascii_of_string s)))).

Fixpoint join (sep : string) (l : list string) : string :=
  match l with
  | [] => ""
  | [s] => s
  | s :: l' => s ++ sep ++ join sep l'
  end.

Fixpoint contains_char (c : ascii) (s : string) : bool :=
  match s with
  | EmptyString => false
  | String a s' => Ascii.eqb a c || contains_char c s'
  end.

(** ** Python floats: binary64, with the conversions the program uses *)

Module PyFloat.

(** The binary64 nearest to the integer [z], ties to even. *)
Definition of_Z (z : Z) : float :=
  SF2Prim (binary_normalize prec emax z 0 false).

(** [float(z)]: None stands for OverflowError. *)
Definition of_int (z : Z) : option float :=
  let f := of_Z z in
  if is_infinity f then None else Some f.

(** The binary64 nearest to the quotient [a / b], for [b > 0]: the quotient
    is cut after more than 64 bits and a sticky bit records the rest. *)
Definition ratio (a b : Z) : float :=
  if a =? 0 then 0%float else
  let n := Z.abs a in
  let k := Z.max 0 (Z.log2 b - Z.log2 n + 66) in
  let q := (n * 2 ^ k) / b in
  let sticky := if (n * 2 ^ k) mod b =? 0 then 0 else 1 in
  SF2Prim (binary_round prec emax (a <? 0) (Z.to_pos (2 * q + sticky)) (- k - 1)).

(** The binary64 nearest to [m * 10^e], for [m >= 0]. *)
Definition of_decimal (m e : Z) : float :=
  if 0 <=? e then of_Z (m * 10 ^ e) else ratio m (10 ^ (- e)).

Definition round_half_even (num den : Z) : Z :=
  let q := num / den in
  let r := num mod den in
  match (2 * r) ?= den with
  | Lt => q
  | Gt => q + 1
  | Eq => if Z.even q then q else q + 1
  end.

(** [round(x, 2)] on a float: the exact value of [x] is rounded to a multiple
    of 1/100, ties to even, and the binary64 nearest to that is returned.
    Zeros, infinities and nan round to themselves. *)
Definition round2 (x : float) : float :=
  match Prim2SF x with
  | S754_finite s m e =>
      if 0 <=? e then x else
      let n := round_half_even (Z.pos m * 100) (2 ^ (- e)) in
      if n =? 0 then (if s then (-0)%float else 0%float)
      else ratio (if s then - n else n) 100
  | _ => x
  end.

Fixpoint scale_up (fuel : nat) (num den j : Z) : Z :=
  match fuel with
  | O => j
  | S fuel' => if den <=? num then j else scale_up fuel' (num * 10) den (j + 1)
  end.

(** [p] such that [10^(p-1) <= num/den < 10^p], for positive [num], [den]. *)
Definition decimal_point (num den : Z) : Z :=
  if den <=? num then Zlength (digits_of_Z (num / den))
  else 1 - scale_up 400 num den 0.

(** [floor (num/den * 10^s)]. *)
Definition scaled_floor (num den s : Z) : Z :=
  if 0 <=? s then (num * 10 ^ s) / den else num / (den * 10 ^ (- s)).

(** Is [num/den] at most half a unit above [lo * 10^(-s)]? *)
Definition nearer_floor (num den s lo : Z) : bool :=
  if 0 <=? s then 2 * (num * 10 ^ s) - 2 * lo * den <=? den
  else 2 * num - 2 * lo * (den * 10 ^ (- s)) <=? den * 10 ^ (- s).

(** The shortest decimal that reads back as [x = num/den]: with [k] digits,
    [k = 1, 2, ...], the two [k]-digit neighbours of [x] are tried; the
    result is [(d, s)] standing for [d * 10^(-s)]. *)
Fixpoint shortest (fuel : nat) (x : float) (num den p k : Z) : Z * Z :=
  let s := k - p in
  let lo := scaled_floor num den s in
  let hi := lo + 1 in
  let oklo := PrimFloat.eqb (of_decimal lo (- s)) x in
  let okhi := PrimFloat.eqb (of_decimal hi (- s)) x in
  match fuel with
  | O => (if nearer_floor num den s lo then lo else hi, s)
  | S fuel' =>
      if oklo && okhi then (if nearer_floor num den s lo then lo else hi, s)
      else if oklo then (lo, s)
      else if okhi then (hi, s)
      else shortest fuel' x num den p (k + 1)
  end.

Definition exponent_text (e : Z) : string :=
  let d := digits_of_Z (Z.abs e) in
  String (if e <? 0 then "-"%char else "+"%char)
    (if Zlength d <? 2 then String "0" d else d).

(** The layout [repr] gives to the digits [ds] with the decimal point after
    [decpt] of them: positional for [-4 < decpt <= 16], else scientific. *)
Definition format_short (ds : string) (decpt : Z) : string :=
  let k := Zlength ds in
  if (decpt <=? -4) || (16 <? decpt) then
    let mant := match ds with
                | String d EmptyString => str1 d
                | String d rest => String d (String "." rest)
                | EmptyString => EmptyString
                end in
    mant ++ "e" ++ exponent_text (decpt - 1)
  else if decpt <=? 0 then
    "0." ++ repeat_char "0" (Z.to_nat (- decpt)) ++ ds
  else if k <=? decpt then
    ds ++ repeat_char "0" (Z.to_nat (decpt - k)) ++ ".0"
  else
    substring 0 (Z.to_nat decpt) ds ++ "." ++
    substring (Z.to_nat decpt) (Z.to_nat (k - decpt)) ds.

(** [repr(x)], which is also [str(x)] and what an f-string prints. *)
Definition repr (x : float) : string :=
  match Prim2SF x with
  | S754_nan => "nan"
  | S754_infinity s => if s then "-inf" else "inf"
  | S754_zero s => if s then "-0.0" else "0.0"
  | S754_finite sg m e =>
      let num := Z.pos m * 2 ^ (Z.max e 0) in
      let den := 2 ^ (Z.max (- e) 0) in
      let p := decimal_point num den in
      let '(d, s) := shortest 16 (abs x) num den p 1 in
      let ds := digits_of_Z d in
      let decpt := Zlength ds - s in
      (if sg then "-" else "") ++ format_short (strip_trailing_zeros ds) decpt
  end.

(** [float(text)] for a JSON number with sign [neg], integer digits [ip],
    fraction digits [fp] and decimal exponent [ex]. *)
Definition of_lexeme (neg : bool) (ip fp : string) (ex : Z) : float :=
  let m := Z_of_digits (ip ++ fp) 0 in
  let f := of_decimal m (ex - Zlength fp) in
  if neg then (- f)%float else f.

End PyFloat.

(** ** Values and exceptions *)

Unset Elimination Schemes.

Inductive value : Type :=
| VNone
| VBool (b : bool)
| VInt (z : Z)
| VFloat (f : float)
| VStr (s : string)
| VList (l : list value)
| VDict (d : list (string * value)).

Set Elimination Schemes.

(** An exception: the name of its class and its text, [str(e)]. *)
Record exn : Type := Exn { exn_class : string; exn_text : string }.

Inductive outcome (A : Type) : Type :=
| Ok (a : A)
| Raised (e : exn).

Arguments Ok {A} a.
Arguments Raised {A} e.

(** Sequencing of steps that may raise: the first exception ends the chain. *)
Definition and_then {A B} (o : outcome A) (k : A -> outcome B) : outcome B :=
  match o with
  | Ok a => k a
  | Raised e => Raised e
  end.

Notation "x <-- o ;; k" := (and_then o (fun x => k))
  (at level 61, o at next level, right associativity).

Definition type_name (v : value) : string :=
  match v with
  | VNone => "NoneType"
  | VBool _ => "bool"
  | VInt _ => "int"
  | VFloat _ => "float"
  | VStr _ => "str"
  | VList _ => "list"
  | VDict _ => "dict"
  end.

(** *** [repr] and [str] *)

Definition printable (c : ascii) : bool :=
  let n := char_code c in
  ((32 <=? n) && (n <? 127)) || ((161 <=? n) && negb (n =? 173)).

Definition hex2 (n : Z) : string :=
  String (hex_char (n / 16)) (str1 (hex_char (n mod 16))).

Definition repr_char (q c : ascii) : string :=
  if Ascii.eqb c q || Ascii.eqb c backslash then String backslash (str1 c)
  else if Ascii.eqb c "009" then "\t"
  else if Ascii.eqb c "010" then "\n"
  else if Ascii.eqb c "013" then "\r"
  else if printable c then str1 c
  else "\x" ++ hex2 (char_code c).

Fixpoint repr_chars (q : ascii) (s : string) : string :=
  match s with
  | EmptyString => EmptyString
  | String c s' => repr_char q c ++ repr_chars q s'
  end.

(** [repr(s)] for a str: single quotes, unless [s] has one and no double
    quote. *)
Definition repr_str (s : string) : string :=
  let q := if contains_char "'" s && negb (contains_char dquote s)
           then dquote else "'"%char in
  String q (repr_chars q s ++ str1 q).

Fixpoint py_repr (v : value) : string :=
  match v with
  | VNone => "None"
  | VBool b => if b then "True" else "False"
  | VInt z => string_of_Z z
  | VFloat f => PyFloat.repr f
  | VStr s => repr_str s
  | VList l => "[" ++ join ", " (map py_repr l) ++ "]"
  | VDict d =>
      "{" ++ join ", " (map (fun '(k, x) => repr_str k ++ ": " ++ py_repr x) d)
          ++ "}"
  end.

(** [str(v)], which an f-string field [{v}] prints. *)
Definition py_str (v : value) : string :=
  match v with
  | VStr s => s
  | _ => py_repr v
  end.

(** ** Effects: the log of calls, and raising *)

(** The keyword arguments of [get_metric_statistics]; times are microseconds
    on the clock's own scale. *)
Record metric_query : Type := MetricQuery {
  Namespace : string;
  MetricName : string;
  Dimensions : value;
  StartTime : Z;
  EndTime : Z;
  Period : Z;
  Statistics : list string
}.

Inductive call : Type :=
| Call_describe_instances (InstanceIds : value)
| Call_now
| Call_get_metric_statistics (q : metric_query)
| Call_print (line : string).

(** What is outside the program: the two clients and the clock. *)
Record world : Type := World {
  ec2_describe_instances : value -> outcome value;
  datetime_now : Z;
  cloudwatch_get_metric_statistics : metric_query -> outcome value
}.

Definition M (A : Type) : Type := list call -> outcome A * list call.

Definition ret {A} (a : A) : M A := fun log => (Ok a, log).

Definition raise {A} (e : exn) : M A := fun log => (Raised e, log).

Definition bind {A B} (m : M A) (k : A -> M B) : M B :=
  fun log =>
    match m log with
    | (Ok a, log') => k a log'
    | (Raised e, log') => (Raised e, log')
    end.

Definition lift {A} (o : outcome A) : M A := fun log => (o, log).

Definition emit (ev : call) : M unit := fun log => (Ok tt, log ++ [ev])%list.

(** [try: body except Exception as e: handler(e)]; every exception of the
    model is an [Exception]. *)
Definition try_except {A} (body : M A) (handler : exn -> M A) : M A :=
  fun log =>
    match body log with
    | (Ok a, log') => (Ok a, log')
    | (Raised e, log') => handler e log'
    end.

Notation "x <- m ;; k" := (bind m (fun x => k))
  (at level 61, m at next level, right associativity).

Notation "m ;;; k" := (bind m (fun _ => k))
  (at level 61, right associativity).

Definition describe_instances (w : world) (ids : value) : M value :=
  emit (Call_describe_instances ids) ;;; lift (ec2_describe_instances w ids).

Definition now (w : world) : M Z :=
  emit Call_now ;;; ret (datetime_now w).

Definition get_metric_statistics (w : world) (q : metric_query) : M value :=
  emit (Call_get_metric_statistics q) ;;;
  lift (cloudwatch_get_metric_statistics w q).

(** [print(line)]: the line is logged; writing it out is taken to succeed. *)
Definition print (line : string) : M unit := emit (Call_print line).

(** ** The built-in operations the program uses *)

Definition TypeError {A} (text : string) : outcome A :=
  Raised (Exn "TypeError" text).

Fixpoint dict_lookup (k : string) (d : list (string * value)) : option value :=
  match d with
  | [] => None
  | (k', v) :: d' => if String.eqb k' k then Some v else dict_lookup k d'
  end.

(** [d[k] = v]: the value is replaced where the key is, else appended. *)
Fixpoint dict_set (k : string) (v : value) (d : list (string * value))
  : list (string * value) :=
  match d with
  | [] => [(k, v)]
  | (k', v') :: d' =>
      if String.eqb k' k then (k', v) :: d' else (k', v') :: dict_set k v d'
  end.

(** [o[k]] for a str constant [k]. *)
Definition subscript_key (o : value) (k : string) : outcome value :=
  match o with
  | VDict d =>
      match dict_lookup k d with
      | Some v => Ok v
      | None => Raised (Exn "KeyError" (repr_str k))
      end
  | VList _ => TypeError "list indices must be integers or slices, not str"
  | VStr _ => TypeError "string indices must be integers, not 'str'"
  | _ => TypeError ("'" ++ type_name o ++ "' object is not subscriptable")
  end.

(** [o[i]] for an int constant [i]. *)
Definition subscript_index (o : value) (i : Z) : outcome value :=
  match o with
  | VDict _ => Raised (Exn "KeyError" (string_of_Z i))
  | VList l =>
      let n := Z.of_nat (List.length l) in
      let j := if i <? 0 then i + n else i in
      if (0 <=? j) && (j <? n) then
        match nth_error l (Z.to_nat j) with
        | Some v => Ok v
        | None => Raised (Exn "IndexError" "list index out of range")
        end
      else Raised (Exn "IndexError" "list index out of range")
  | VStr s =>
      let n := Zlength s in
      let j := if i <? 0 then i + n else i in
      if (0 <=? j) && (j <? n) then
        match String.get (Z.to_nat j) s with
        | Some c => Ok (VStr (str1 c))
        | None => Raised (Exn "IndexError" "string index out of range")
        end
      else Raised (Exn "IndexError" "string index out of range")
  | _ => TypeError ("'" ++ type_name o ++ "' object is not subscriptable")
  end.

(** [o.get(k, default)]. *)
Definition method_get (o : value) (k : string) (default : value)
  : outcome value :=
  match o with
  | VDict d =>
      match dict_lookup k d with
      | Some v => Ok v
      | None => Ok default
      end
  | _ => Raised (Exn "AttributeError"
                   ("'" ++ type_name o ++ "' object has no attribute 'get'"))
  end.

(** Truth value of [v] in [if v:]. *)
Definition truthy (v : value) : bool :=
  match v with
  | VNone => false
  | VBool b => b
  | VInt z => negb (z =? 0)
  | VFloat f => negb (PrimFloat.eqb f 0)
  | VStr s => negb (String.eqb s "")
  | VList l => match l with [] => false | _ => true end
  | VDict d => match d with [] => false | _ => true end
  end.

Fixpoint chars_of (s : string) : list value :=
  match s with
  | EmptyString => []
  | String c s' => VStr (str1 c) :: chars_of s'
  end.

(** The items [for p in v] goes through. *)
Definition py_iter (v : value) : outcome (list value) :=
  match v with
  | VList l => Ok l
  | VStr s => Ok (chars_of s)
  | VDict d => Ok (map (fun kv => VStr (fst kv)) d)
  | _ => TypeError ("'" ++ type_name v ++ "' object is not iterable")
  end.

(** [len(v)]. *)
Definition py_len (v : value) : outcome value :=
  match v with
  | VList l => Ok (VInt (Z.of_nat (List.length l)))
  | VStr s => Ok (VInt (Zlength s))
  | VDict d => Ok (VInt (Z.of_nat (List.length d)))
  | _ => TypeError ("object of type '" ++ type_name v ++ "' has no len()")
  end.

Definition float_of_int (z : Z) : outcome float :=
  match PyFloat.of_int z with
  | Some f => Ok f
  | None => Raised (Exn "OverflowError" "int too large to convert to float")
  end.

Definition bool_int (b : bool) : Z := if b then 1 else 0.

Definition unsupported {A} (op : string) (a b : value) : outcome A :=
  TypeError ("unsupported operand type(s) for " ++ op ++ ": '" ++ type_name a
             ++ "' and '" ++ type_name b ++ "'").

Definition add_int (x : Z) (a b : value) : outcome value :=
  match b with
  | VInt y => Ok (VInt (x + y))
  | VBool y => Ok (VInt (x + bool_int y))
  | VFloat g =>
      match float_of_int x with
      | Ok f => Ok (VFloat (f + g))
      | Raised e => Raised e
      end
  | _ => unsupported "+" a b
  end.

Definition cannot_concatenate {A} (a b : value) : outcome A :=
  TypeError ("can only concatenate " ++ type_name a ++ " (not "
             ++ String dquote (type_name b ++ str1 dquote) ++ ") to "
             ++ type_name a).

(** [a + b]. *)
Definition py_add (a b : value) : outcome value :=
  match a with
  | VInt x => add_int x a b
  | VBool x => add_int (bool_int x) a b
  | VFloat f =>
      match b with
      | VFloat g => Ok (VFloat (f + g))
      | VInt y =>
          match float_of_int y with
          | Ok g => Ok (VFloat (f + g))
          | Raised e => Raised e
          end
      | VBool y => Ok (VFloat (f + PyFloat.of_Z (bool_int y)))
      | _ => unsupported "+" a b
      end
  | VStr s =>
      match b with
      | VStr t => Ok (VStr (s ++ t))
      | _ => cannot_concatenate a b
      end
  | VList l =>
      match b with
      | VList m => Ok (VList (l ++ m)%list)
      | _ => cannot_concatenate a b
      end
  | _ => unsupported "+" a b
  end.

Definition div_float (f g : float) : outcome value :=
  if PrimFloat.eqb g 0 then
    Raised (Exn "ZeroDivisionError" "float division by zero")
  else Ok (VFloat (f / g)).

(** [x / y] on ints: the quotient correctly rounded. *)
Definition div_int (x y : Z) : outcome value :=
  if y =? 0 then Raised (Exn "ZeroDivisionError" "division by zero")
  else
    let q := if y <? 0 then PyFloat.ratio (- x) (- y) else PyFloat.ratio x y in
    if is_infinity q then
      Raised (Exn "OverflowError"
                "integer division result too large for a float")
    else Ok (VFloat q).

Definition as_int (v : value) : option Z :=
  match v with
  | VInt z => Some z
  | VBool b => Some (bool_int b)
  | _ => None
  end.

(** [a / b]. *)
Definition py_truediv (a b : value) : outcome value :=
  match a, b with
  | VFloat f, VFloat g => div_float f g
  | VFloat f, (VInt _ | VBool _) =>
      match as_int b with
      | Some y =>
          match float_of_int y with
          | Ok g => div_float f g
          | Raised e => Raised e
          end
      | None => unsupported "/" a b
      end
  | (VInt _ | VBool _), VFloat g =>
      match as_int a with
      | Some x =>
          match float_of_int x with
          | Ok f => div_float f g
          | Raised e => Raised e
          end
      | None => unsupported "/" a b
      end
  | (VInt _ | VBool _), (VInt _ | VBool _) =>
      match as_int a, as_int b with
      | Some x, Some y => div_int x y
      | _, _ => unsupported "/" a b
      end
  | _, _ => unsupported "/" a b
  end.

(** [round(v, 2)]. *)
Definition py_round2 (v : value) : outcome value :=
  match v with
  | VFloat f => Ok (VFloat (PyFloat.round2 f))
  | VInt z => Ok (VInt z)
  | VBool b => Ok (VInt (bool_int b))
  | _ => TypeError ("type " ++ type_name v
                    ++ " doesn't define __round__ method")
  end.

(** [a == s] for a str constant [s]. *)
Definition eq_str (a : value) (s : string) : bool :=
  match a with
  | VStr t => String.eqb t s
  | _ => false
  end.

(** ** [json.dumps] *)

Module Json.

(** One character of a str between the quotes, as [ensure_ascii] writes it. *)
Definition escape_char (c : ascii) : string :=
  let n := char_code c in
  if Ascii.eqb c dquote then String backslash (str1 dquote)
  else if Ascii.eqb c backslash then String backslash (str1 backslash)
  else if n =? 10 then "\n"
  else if n =? 13 then "\r"
  else if n =? 9 then "\t"
  else if n =? 8 then "\b"
  else if n =? 12 then "\f"
  else if (32 <=? n) && (n <=? 126) then str1 c
  else "\u00" ++ hex2 n.

Fixpoint escape_chars (s : string) : string :=
  match s with
  | EmptyString => EmptyString
  | String c s' => escape_char c ++ escape_chars s'
  end.

Definition encode_str (s : string) : string :=
  String dquote (escape_chars s ++ str1 dquote).

Definition float_text (f : float) : string :=
  if is_nan f then "NaN"
  else if is_infinity f then (if (f <? 0)%float then "-Infinity" else "Infinity")
  else PyFloat.repr f.

Definition member_text (k : string) (text : string) : string :=
  encode_str k ++ ": " ++ text.

(** [json.dumps(v)] with the defaults: [", "] and [": "] separators, non-ASCII
    escaped, keys in insertion order. *)
Fixpoint dumps (v : value) : string :=
  match v with
  | VNone => "null"
  | VBool b => if b then "true" else "false"
  | VInt z => string_of_Z z
  | VFloat f => float_text f
  | VStr s => encode_str s
  | VList l => "[" ++ join ", " (map dumps l) ++ "]"
  | VDict d =>
      "{" ++ join ", " (map (fun '(k, x) => member_text k (dumps x)) d) ++ "}"
  end.

(** ** [json.loads] *)

Definition JSONDecodeError {A} (text : string) : outcome A :=
  Raised (Exn "JSONDecodeError" text).

Definition is_ws (c : ascii) : bool :=
  let n := char_code c in
  (n =? 32) || (n =? 9) || (n =? 10) || (n =? 13).

Fixpoint skip_ws (s : string) : string :=
  match s with
  | EmptyString => EmptyString
  | String c s' => if is_ws c then skip_ws s' else s
  end.

(** [s] without its prefix [p], when it has it. *)
Fixpoint strip_prefix (p s : string) : option string :=
  match p with
  | EmptyString => Some s
  | String a p' =>
      match s with
      | EmptyString => None
      | String b s' => if Ascii.eqb a b then strip_prefix p' s' else None
      end
  end.

(** The character a backslash escape stands for. *)
Definition unescape (e : ascii) : option ascii :=
  if Ascii.eqb e dquote then Some dquote
  else if Ascii.eqb e backslash then Some backslash
  else if Ascii.eqb e "/" then Some "/"%char
  else if Ascii.eqb e "b" then Some "008"%char
  else if Ascii.eqb e "f" then Some "012"%char
  else if Ascii.eqb e "n" then Some "010"%char
  else if Ascii.eqb e "r" then Some "013"%char
  else if Ascii.eqb e "t" then Some "009"%char
  else None.

Definition hex4 (a b c d : ascii) : option Z :=
  match hex_value a, hex_value b, hex_value c, hex_value d with
  | Some x, Some y, Some z, Some t => Some (((x * 16 + y) * 16 + z) * 16 + t)
  | _, _, _, _ => None
  end.

Definition push (c : ascii) (r : outcome (string * string))
  : outcome (string * string) :=
  match r with
  | Ok (t, rest) => Ok (String c t, rest)
  | Raised e => Raised e
  end.

(** The str that ends at the next unescaped quote, and what follows it; [s]
    starts after the opening quote.  An escape [\uXXXX] above U+00FF has no
    character here and is refused. *)
Fixpoint scanstring (s : string) : outcome (string * string) :=
  match s with
  | EmptyString => JSONDecodeError "Unterminated string starting at"
  | String c s1 =>
      if Ascii.eqb c dquote then Ok (EmptyString, s1)
      else if Ascii.eqb c backslash then
        match s1 with
        | EmptyString => JSONDecodeError "Unterminated string starting at"
        | String e s2 =>
            if Ascii.eqb e "u" then
              match s2 with
              | String h1 (String h2 (String h3 (String h4 s3))) =>
                  match hex4 h1 h2 h3 h4 with
                  | Some n =>
                      if n <? 256 then push (char_of_code n) (scanstring s3)
                      else JSONDecodeError "escape above U+00FF"
                  | None => JSONDecodeError "Invalid \uXXXX escape"
                  end
              | _ => JSONDecodeError "Invalid \uXXXX escape"
              end
            else
              match unescape e with
              | Some ch => push ch (scanstring s2)
              | None => JSONDecodeError "Invalid \escape"
              end
        end
      else if char_code c <? 32 then
        JSONDecodeError "Invalid control character at"
      else push c (scanstring s1)
  end.

(** The longest prefix of digits, and the rest. *)
Fixpoint take_digits (s : string) : string * string :=
  match s with
  | EmptyString => (EmptyString, EmptyString)
  | String c s' =>
      if is_digit c then
        let '(ds, r) := take_digits s' in (String c ds, r)
      else (EmptyString, s)
  end.

(** [0|[1-9][0-9]*] *)
Definition int_part (s : string) : option (string * string) :=
  match s with
  | EmptyString => None
  | String c s' =>
      if Ascii.eqb c "0" then Some ("0", s')
      else if is_digit c then
        let '(ds, r) := take_digits s' in Some (String c ds, r)
      else None
  end.

(** [(\.[0-9]+)?]: the digits, empty when the group is absent. *)
Definition frac_part (s : string) : string * string :=
  match s with
  | EmptyString => (EmptyString, s)
  | String c s' =>
      if Ascii.eqb c "." then
        let '(ds, r) := take_digits s' in
        match ds with
        | EmptyString => (EmptyString, s)
        | _ => (ds, r)
        end
      else (EmptyString, s)
  end.

(** [[-+]?]: is the sign a minus, and what follows the sign. *)
Definition exp_sign (s : string) : bool * string :=
  match s with
  | EmptyString => (false, s)
  | String c t =>
      if Ascii.eqb c "-" then (true, t)
      else if Ascii.eqb c "+" then (false, t)
      else (false, s)
  end.

(** [([eE][-+]?[0-9]+)?]: the exponent, when the group is there. *)
Definition exp_part (s : string) : option Z * string :=
  match s with
  | EmptyString => (None, s)
  | String c s' =>
      if Ascii.eqb c "e" || Ascii.eqb c "E" then
        let '(neg, s'') := exp_sign s' in
        let '(ds, r) := take_digits s'' in
        match ds with
        | EmptyString => (None, s)
        | _ => (Some (if neg then - Z_of_digits ds 0 else Z_of_digits ds 0), r)
        end
      else (None, s)
  end.

(** [-?]: is there a minus, and what follows it. *)
Definition minus_sign (s : string) : bool * string :=
  match s with
  | EmptyString => (false, s)
  | String c t => if Ascii.eqb c "-" then (true, t) else (false, s)
  end.

(** A number at the head of [s]: an int when it has neither fraction nor
    exponent, else a float. *)
Definition scan_number (s : string) : option (value * string) :=
  let '(neg, s1) := minus_sign s in
  match int_part s1 with
  | None => None
  | Some (ip, s2) =>
      let '(fp, s3) := frac_part s2 in
      let '(ex, s4) := exp_part s3 in
      match fp, ex with
      | EmptyString, None =>
          Some (VInt (if neg then - Z_of_digits ip 0 else Z_of_digits ip 0), s4)
      | _, Some e => Some (VFloat (PyFloat.of_lexeme neg ip fp e), s4)
      | _, None => Some (VFloat (PyFloat.of_lexeme neg ip fp 0), s4)
      end
  end.

(** [null], [true], [false], a number, [NaN], [Infinity], [-Infinity]. *)
Definition scan_atom (s : string) : outcome (value * string) :=
  match strip_prefix "null" s with
  | Some r => Ok (VNone, r)
  | None =>
  match strip_prefix "true" s with
  | Some r => Ok (VBool true, r)
  | None =>
  match strip_prefix "false" s with
  | Some r => Ok (VBool false, r)
  | None =>
  match scan_number s with
  | Some res => Ok res
  | None =>
  match strip_prefix "NaN" s with
  | Some r => Ok (VFloat nan, r)
  | None =>
  match strip_prefix "Infinity" s with
  | Some r => Ok (VFloat infinity, r)
  | None =>
  match strip_prefix "-Infinity" s with
  | Some r => Ok (VFloat neg_infinity, r)
  | None => JSONDecodeError "Expecting value"
  end end end end end end end.

(** [dict(pairs)]: a key met again keeps its place and takes the new value. *)
Definition dict_of_pairs (pairs : list (string * value))
  : list (string * value) :=
  fold_left (fun d '(k, v) => dict_set k v d) pairs [].

(** The value at the head of [s] and what follows it.  [parse_elements] reads
    the values of an array after its bracket, [parse_members] the pairs of an
    object after the quote that opens a key. *)
Fixpoint parse_value (fuel : nat) (s : string) : outcome (value * string) :=
  match fuel with
  | O => Raised (Exn "RecursionError" "maximum recursion depth exceeded")
  | S fuel' =>
      match s with
      | EmptyString => JSONDecodeError "Expecting value"
      | String c s1 =>
          if Ascii.eqb c dquote then
            match scanstring s1 with
            | Ok (t, r) => Ok (VStr t, r)
            | Raised e => Raised e
            end
          else if Ascii.eqb c "{" then
            match skip_ws s1 with
            | String c2 s2 =>
                if Ascii.eqb c2 "}" then Ok (VDict [], s2)
                else if Ascii.eqb c2 dquote then
                  match parse_members fuel' s2 with
                  | Ok (pairs, r) => Ok (VDict (dict_of_pairs pairs), r)
                  | Raised e => Raised e
                  end
                else JSONDecodeError
                       "Expecting property name enclosed in double quotes"
            | EmptyString =>
                JSONDecodeError
                  "Expecting property name enclosed in double quotes"
            end
          else if Ascii.eqb c "[" then
            match skip_ws s1 with
            | String c2 s2 =>
                if Ascii.eqb c2 "]" then Ok (VList [], s2)
                else
                  match parse_elements fuel' (String c2 s2) with
                  | Ok (l, r) => Ok (VList l, r)
                  | Raised e => Raised e
                  end
            | EmptyString => JSONDecodeError "Expecting value"
            end
          else scan_atom s
      end
  end

with parse_elements (fuel : nat) (s : string)
  : outcome (list value * string) :=
  match fuel with
  | O => Raised (Exn "RecursionError" "maximum recursion depth exceeded")
  | S fuel' =>
      match parse_value fuel' s with
      | Raised e => Raised e
      | Ok (v, r) =>
          match skip_ws r with
          | String c r1 =>
              if Ascii.eqb c "]" then Ok ([v], r1)
              else if Ascii.eqb c "," then
                match parse_elements fuel' (skip_ws r1) with
                | Ok (l, r2) => Ok (v :: l, r2)
                | Raised e => Raised e
                end
              else JSONDecodeError "Expecting ',' delimiter"
          | EmptyString => JSONDecodeError "Expecting ',' delimiter"
          end
      end
  end

with parse_members (fuel : nat) (s : string)
  : outcome (list (string * value) * string) :=
  match fuel with
  | O => Raised (Exn "RecursionError" "maximum recursion depth exceeded")
  | S fuel' =>
      match scanstring s with
      | Raised e => Raised e
      | Ok (k, r) =>
          match skip_ws r with
          | String c r1 =>
              if Ascii.eqb c ":" then
                match parse_value fuel' (skip_ws r1) with
                | Raised e => Raised e
                | Ok (v, r2) =>
                    match skip_ws r2 with
                    | String c3 r3 =>
                        if Ascii.eqb c3 "}" then Ok ([(k, v)], r3)
                        else if Ascii.eqb c3 "," then
                          match skip_ws r3 with
                          | String c4 r4 =>
                              if Ascii.eqb c4 dquote then
                                match parse_members fuel' r4 with
                                | Ok (l, r5) => Ok ((k, v) :: l, r5)
                                | Raised e => Raised e
                                end
                              else JSONDecodeError
                                "Expecting property name enclosed in double quotes"
                          | EmptyString => JSONDecodeError
                              "Expecting property name enclosed in double quotes"
                          end
                        else JSONDecodeError "Expecting ',' delimiter"
                    | EmptyString => JSONDecodeError "Expecting ',' delimiter"
                    end
                end
              else JSONDecodeError "Expecting ':' delimiter"
          | EmptyString => JSONDecodeError "Expecting ':' delimiter"
          end
      end
  end.

(** [json.loads] on the text [s]: one value, blanks around it, nothing
    else.  Ints are read whatever their length. *)
Definition loads_text (s : string) : outcome value :=
  match parse_value (2 * String.length s + 2) (skip_ws s) with
  | Raised e => Raised e
  | Ok (v, r) =>
      match skip_ws r with
      | EmptyString => Ok v
      | _ => JSONDecodeError "Extra data"
      end
  end.

(** [json.loads(x)]. *)
Definition loads (x : value) : outcome value :=
  match x with
  | VStr s => loads_text s
  | _ => TypeError ("the JSON object must be str, bytes or bytearray, not "
                    ++ type_name x)
  end.

End Json.

(** ** The program *)

(** [timedelta(hours=24)], in microseconds. *)
Definition hours_24 : Z := 24 * 3600 * 1000000.

(** [ec2_response['Reservations'][0]['Instances'][0]['InstanceType']] *)
Definition instance_type_of (ec2_response : value) : outcome value :=
  reservations <-- subscript_key ec2_response "Reservations" ;;
  reservation <-- subscript_index reservations 0 ;;
  instances <-- subscript_key reservation "Instances" ;;
  instance <-- subscript_index instances 0 ;;
  subscript_key instance "InstanceType".

(** [sum(p['Average'] for p in data_points)]: from the int 0, each item is
    subscripted and added in turn, left to right, as the language reference
    defines [sum]; the first exception ends the sum.  (CPython from 3.12 on
    carries a compensation term through a run of floats, which can change
    the last bits of the total; that refinement is not modelled.) *)
Fixpoint sum_of_averages (items : list value) (acc : value) : outcome value :=
  match items with
  | [] => Ok acc
  | p :: items' =>
      a <-- subscript_key p "Average" ;;
      acc' <-- py_add acc a ;;
      sum_of_averages items' acc'
  end.

(** The value of [cpu_average] after lines 40 to 46. *)
Definition cpu_average_of (data_points : value) : outcome value :=
  if truthy data_points then
    items <-- py_iter data_points ;;
    total_cpu <-- sum_of_averages items (VInt 0) ;;
    n <-- py_len data_points ;;
    py_truediv total_cpu n
  else Ok (VFloat 0).

Definition success_message (instance_id rounded instance_type : value)
  : string :=
  "Successfully retrieved data for " ++ py_str instance_id
  ++ ". Average CPU: " ++ py_str rounded
  ++ "%. Current Type: " ++ py_str instance_type.

Definition failure_message (instance_id : value) : string :=
  "Failed to retrieve data for " ++ py_str instance_id
  ++ ". Check instance ID or permissions.".

Definition cpu_query (instance_id : value) (start_time end_time : Z)
  : metric_query :=
  {| Namespace := "AWS/EC2";
     MetricName := "CPUUtilization";
     Dimensions :=
       VList [VDict [("Name", VStr "InstanceId"); ("Value", instance_id)]];
     StartTime := start_time;
     EndTime := end_time;
     Period := 3600;
     Statistics := ["Average"] |}.

Definition success_summary (instance_id instance_type rounded : value)
  : value :=
  VDict [("instance_id", instance_id);
         ("instance_type", instance_type);
         ("average_cpu_utilization_24h", rounded);
         ("message", VStr (success_message instance_id rounded instance_type))].

Definition failure_summary (instance_id : value) (e : exn) : value :=
  VDict [("instance_id", instance_id);
         ("error", VStr (exn_text e));
         ("message", VStr (failure_message instance_id))].

(** The body of the [try] block. *)
Definition lookup (w : world) (instance_id : value) : M value :=
  ec2_response <- describe_instances w (VList [instance_id]) ;;
  instance_type <- lift (instance_type_of ec2_response) ;;
  end_time <- now w ;;
  let start_time := end_time - hours_24 in
  cloudwatch_response <-
    get_metric_statistics w (cpu_query instance_id start_time end_time) ;;
  data_points <- lift (method_get cloudwatch_response "Datapoints" (VList [])) ;;
  cpu_average <- lift (cpu_average_of data_points) ;;
  rounded <- lift (py_round2 cpu_average) ;;
  ret (success_summary instance_id instance_type rounded).

(** The [except Exception as e] block. *)
Definition recover (instance_id : value) (e : exn) : M value :=
  print ("Error retrieving data for " ++ py_str instance_id ++ ": "
         ++ exn_text e) ;;;
  ret (failure_summary instance_id e).

Definition get_ec2_cpu_utilization (w : world) (instance_id : value)
  : M value :=
  try_except (lookup w instance_id) (recover instance_id).

Definition supported_path : string := "/get_ec2_cpu_utilization".

(** [event['requestBody']['content']['application/json']['body']] *)
Definition request_body_of (event : value) : outcome value :=
  request_body <-- subscript_key event "requestBody" ;;
  content <-- subscript_key request_body "content" ;;
  media <-- subscript_key content "application/json" ;;
  subscript_key media "body".

Definition envelope (action api_path http_method : value) (body : string)
  : value :=
  VDict [("response",
          VDict [("actionGroup", action);
                 ("apiPath", api_path);
                 ("httpMethod", http_method);
                 ("httpStatusCode", VInt 200);
                 ("responseBody",
                  VDict [("application/json",
                          VDict [("body", VStr body)])])])].

Definition lambda_handler (w : world) (event : value) : M value :=
  action <- lift (subscript_key event "actionGroup") ;;
  api_path <- lift (subscript_key event "apiPath") ;;
  if eq_str api_path supported_path then
    body <- lift (request_body_of event) ;;
    parameters <- lift (Json.loads body) ;;
    instance_id <- lift (method_get parameters "instance_id" VNone) ;;
    result <- get_ec2_cpu_utilization w instance_id ;;
    let body_text := Json.dumps result in
    http_method <- lift (subscript_key event "httpMethod") ;;
    ret (envelope action api_path http_method body_text)
  else
    raise (Exn "Exception" ("Unsupported API path: " ++ py_str api_path)).

(** Running a computation from an empty log. *)
Definition run {A} (m : M A) : outcome A * list call := m [].

Definition result_of {A} (m : M A) : outcome A := fst (run m).

Definition calls_of {A} (m : M A) : list call := snd (run m).

(** * The vocabulary of the properties *)

(** A datapoint [p] whose ['Average'] is the float [x]. *)
Definition has_average (p : value) (x : float) : Prop :=
  exists d, p = VDict d /\ dict_lookup "Average" d = Some (VFloat x).

(** The sum of floats, left to right from zero. *)
Definition float_sum (xs : list float) : float :=
  fold_left PrimFloat.add xs 0%float.

(** The unweighted mean: every bucket counts once. *)
Definition arithmetic_mean (xs : list float) : float :=
  (float_sum xs / PyFloat.of_Z (Z.of_nat (List.length xs)))%float.

(** GetMetricStatistics returns at most 1,440 datapoints from one call. *)
Definition max_datapoints : nat := 1440.

(** [float(n)] is defined and is not zero. *)
Definition count_converts (n : nat) : bool :=
  match PyFloat.of_int (Z.of_nat n) with
  | Some g => negb (PrimFloat.eqb g 0)
  | None => false
  end.

(** The keys of a dict, in order. *)
Definition keys_of (v : value) : list string :=
  match v with
  | VDict d => map fst d
  | _ => []
  end.

Definition success_keys : list string :=
  ["instance_id"; "instance_type"; "average_cpu_utilization_24h"; "message"].



(** The calls to the inventory among [calls]. *)
Definition is_describe (ev : call) : bool :=
  match ev with
  | Call_describe_instances _ => true
  | _ => false
  end.

Definition inventory_lookups (calls : list call) : list call :=
  filter is_describe calls.

(** The instance_id the handler hands to the resolver (lines 72 and 73). *)
Definition instance_id_of (event : value) : outcome value :=
  body <-- request_body_of event ;;
  parameters <-- Json.loads body ;;
  method_get parameters "instance_id" VNone.

Definition unsupported_path (api_path : value) : exn :=
  Exn "Exception" ("Unsupported API path: " ++ py_str api_path).

(** The handler's run, step by step. *)
Definition handler_steps (w : world) (event : value)
  : outcome value * list call :=
  match subscript_key event "actionGroup" with
  | Raised e => (Raised e, [])
  | Ok action =>
      match subscript_key event "apiPath" with
      | Raised e => (Raised e, [])
      | Ok api_path =>
          if eq_str api_path supported_path then
            match instance_id_of event with
            | Raised e => (Raised e, [])
            | Ok instance_id =>
                match run (get_ec2_cpu_utilization w instance_id) with
                | (Raised e, calls) => (Raised e, calls)
                | (Ok result, calls) =>
                    match subscript_key event "httpMethod" with
                    | Raised e => (Raised e, calls)
                    | Ok http_method =>
                        (Ok (envelope action api_path http_method
                               (Json.dumps result)), calls)
                    end
                end
            end
          else (Raised (unsupported_path api_path), [])
      end
  end.

(** The value under the keys [ks], one dict inside the other. *)
Fixpoint dict_path (ks : list string) (v : value) : option value :=
  match ks with
  | [] => Some v
  | k :: ks' =>
      match v with
      | VDict d =>
          match dict_lookup k d with
          | Some x => dict_path ks' x
          | None => None
          end
      | _ => None
      end
  end.

Definition body_path : list string :=
  ["requestBody"; "content"; "application/json"; "body"].

(** The query the resolver sends: the 24 hours that end at the clock's
    time. *)
Definition the_query (w : world) (instance_id : value) : metric_query :=
  cpu_query instance_id (datetime_now w - hours_24) (datetime_now w).

(** The three calls a lookup makes when neither client raises. *)
Definition full_trace (w : world) (instance_id : value) : list call :=
  [Call_describe_instances (VList [instance_id]);
   Call_now;
   Call_get_metric_statistics (the_query w instance_id)].

(** How far a lookup gets, read off the two clients' answers. *)
Inductive lookup_run (w : world) (instance_id : value)
  : outcome value -> list call -> Prop :=
| Run_describe_raises e :
    ec2_describe_instances w (VList [instance_id]) = Raised e ->
    lookup_run w instance_id (Raised e)
      [Call_describe_instances (VList [instance_id])]
| Run_no_type resp e :
    ec2_describe_instances w (VList [instance_id]) = Ok resp ->
    instance_type_of resp = Raised e ->
    lookup_run w instance_id (Raised e)
      [Call_describe_instances (VList [instance_id])]
| Run_metrics_raise resp ty e :
    ec2_describe_instances w (VList [instance_id]) = Ok resp ->
    instance_type_of resp = Ok ty ->
    cloudwatch_get_metric_statistics w (the_query w instance_id) = Raised e ->
    lookup_run w instance_id (Raised e) (full_trace w instance_id)
| Run_average_raises resp ty cw e :
    ec2_describe_instances w (VList [instance_id]) = Ok resp ->
    instance_type_of resp = Ok ty ->
    cloudwatch_get_metric_statistics w (the_query w instance_id) = Ok cw ->
    (data_points <-- method_get cw "Datapoints" (VList []) ;;
     cpu_average <-- cpu_average_of data_points ;;
     py_round2 cpu_average) = Raised e ->
    lookup_run w instance_id (Raised e) (full_trace w instance_id)
| Run_success resp ty cw rounded :
    ec2_describe_instances w (VList [instance_id]) = Ok resp ->
    instance_type_of resp = Ok ty ->
    cloudwatch_get_metric_statistics w (the_query w instance_id) = Ok cw ->
    (data_points <-- method_get cw "Datapoints" (VList []) ;;
     cpu_average <-- cpu_average_of data_points ;;
     py_round2 cpu_average) = Ok rounded ->
    lookup_run w instance_id (Ok (success_summary instance_id ty rounded))
      (full_trace w instance_id).

(** The resolver, from what its lookup did. *)
Definition resolved (instance_id : value) (o : outcome value)
  (calls : list call) : outcome value * list call :=
  match o with
  | Ok summary => (Ok summary, calls)
  | Raised e =>
      (Ok (failure_summary instance_id e),
       (calls ++ [Call_print ("Error retrieving data for "
                              ++ py_str instance_id ++ ": " ++ exn_text e)])%list)
  end.

Fixpoint digits_only (s : string) : bool :=
  match s with
  | EmptyString => true
  | String c s' => is_digit c && digits_only s'
  end.

(** [s] is the numeral of [n]: digits only, no leading zero, value [n]. *)
Definition numeral (s : string) (n : Z) : Prop :=
  digits_only s = true /\
  Z_of_digits s 0 = n /\
  exists c t, s = String c t /\ (c = "0"%char -> t = EmptyString /\ n = 0).

Definition delimiter (c : ascii) : bool :=
  Ascii.eqb c "," || Ascii.eqb c "]" || Ascii.eqb c "}".

(** [rest] is empty or starts with a comma or a closing bracket. *)
Definition delimited (rest : string) : Prop :=
  match rest with
  | EmptyString => True
  | String c _ => delimiter c = true
  end.

Fixpoint free_of_delimiters (p : string) : bool :=
  match p with
  | EmptyString => true
  | String c p' => negb (delimiter c) && free_of_delimiters p'
  end.

(** The text of [f] is read back as [f]: [float(repr(f))] is [f]. *)
Definition float_reads_back (f : float) : Prop :=
  Json.scan_atom (Json.float_text f) = Ok (VFloat f, EmptyString).

(** Every float in [v] is read back from its text, and no dict in [v] has
    a key twice. *)
Fixpoint json_exact (v : value) : Prop :=
  match v with
  | VFloat f => float_reads_back f
  | VList l =>
      (fix all (l : list value) : Prop :=
         match l with
         | [] => True
         | x :: l' => json_exact x /\ all l'
         end) l
  | VDict d =>
      NoDup (map fst d) /\
      (fix all (d : list (string * value)) : Prop :=
         match d with
         | [] => True
         | (_, x) :: d' => json_exact x /\ all d'
         end) d
  | _ => True
  end.

(** The calls to the parser that reading [v] back takes. *)
Fixpoint size (v : value) : nat :=
  match v with
  | VList l => S (list_sum (map (fun x => S (size x)) l))
  | VDict d => S (list_sum (map (fun '(_, x) => S (size x)) d))
  | _ => 1
  end.

(** The first character of a value's text: no blank, no closing bracket. *)
Definition head_ok (s : string) : Prop :=
  match s with
  | EmptyString => False
  | String c _ => Json.is_ws c = false /\ c <> "]"%char
  end.

Section ValueInduction.

Variable P : value -> Prop.
Hypothesis P_none : P VNone.
Hypothesis P_bool : forall b, P (VBool b).
Hypothesis P_int : forall z, P (VInt z).
Hypothesis P_float : forall f, P (VFloat f).
Hypothesis P_str : forall s, P (VStr s).
Hypothesis P_list : forall l, Forall P l -> P (VList l).
Hypothesis P_dict : forall d, Forall (fun kv => P (snd kv)) d -> P (VDict d).

Fixpoint value_induction (v : value) : P v :=
  match v with
  | VNone => P_none
  | VBool b => P_bool b
  | VInt z => P_int z
  | VFloat f => P_float f
  | VStr s => P_str s
  | VList l =>
      P_list l
        (list_ind (Forall P) (Forall_nil P)
           (fun x l' IH => Forall_cons x (value_induction x) IH) l)
  | VDict d =>
      P_dict d
        (list_ind (Forall (fun kv => P (snd kv))) (Forall_nil _)
           (fun kv d' IH =>
              Forall_cons kv
                (match kv as p return P (snd p) with
                 | (_, x) => value_induction x
                 end) IH) d)
  end.

End ValueInduction.

(** The text of the values [x :: l] of an array and of what follows. *)
Fixpoint elements_text (x : value) (l : list value) (rest : string)
  : string :=
  Json.dumps x ++
  match l with
  | [] => String "]" rest
  | y :: l' => String "," (String " " (elements_text y l' rest))
  end.

(** What the induction gives for a value inside a container. *)
Definition reads_back (x : value) : Prop :=
  json_exact x ->
  forall fuel rest,
    (size x <= fuel)%nat -> delimited rest ->
    Json.parse_value fuel (Json.dumps x ++ rest) = Ok (x, rest).

(** The text of the members [(k, x) :: d] of an object, after the quote
    that opens the first key, and of what follows. *)
Fixpoint members_text (k : string) (x : value) (d : list (string * value))
  (rest : string) : string :=
  Json.escape_chars k ++
  String dquote (String ":" (String " " (Json.dumps x ++
    match d with
    | [] => String "}" rest
    | (k', y) :: d' =>
        String "," (String " " (String dquote (members_text k' y d' rest)))
    end))).

Definition member (kv : string * value) : string :=
  let '(k, x) := kv in Json.member_text k (Json.dumps x).

(** ** Sample runs *)

Definition sample_inventory : value :=
  VDict [("Reservations",
          VList [VDict [("Instances",
                         VList [VDict [("InstanceId", VStr "i-123");
                                       ("InstanceType", VStr "t3.micro")];
                                VDict [("InstanceId", VStr "i-456");
                                       ("InstanceType", VStr "m5.large")]])]])].

Definition datapoint (x : float) : value :=
  VDict [("Timestamp", VStr "2024-05-01 10:00:00+00:00");
         ("Average", VFloat x);
         ("Unit", VStr "Percent")].

Definition sample_metrics (xs : list float) : value :=
  VDict [("Label", VStr "CPUUtilization");
         ("Datapoints", VList (map datapoint xs))].

Definition sample_clock : Z := 1714557600000000.

(** An inventory that knows the instance and metrics with the averages
    [xs]. *)
Definition sample_world (xs : list float) : world :=
  {| ec2_describe_instances := fun _ => Ok sample_inventory;
     datetime_now := sample_clock;
     cloudwatch_get_metric_statistics := fun _ => Ok (sample_metrics xs) |}.

Definition not_found : exn :=
  Exn "ClientError"
    "An error occurred (InvalidInstanceID.NotFound) when calling the DescribeInstances operation".

Definition throttled : exn :=
  Exn "ClientError"
    "An error occurred (Throttling) when calling the GetMetricStatistics operation".

(** An inventory that refuses every id. *)
Definition unknown_world : world :=
  {| ec2_describe_instances := fun _ => Raised not_found;
     datetime_now := sample_clock;
     cloudwatch_get_metric_statistics := fun _ => Ok (sample_metrics []) |}.

(** Metrics that fail. *)
Definition throttled_world : world :=
  {| ec2_describe_instances := fun _ => Ok sample_inventory;
     datetime_now := sample_clock;
     cloudwatch_get_metric_statistics := fun _ => Raised throttled |}.


Definition sample_fields (api_path body : string) : list (string * value) :=
  [("messageVersion", VStr "1.0");
   ("actionGroup", VStr "CostActions");
   ("apiPath", VStr api_path);
   ("httpMethod", VStr "POST");
   ("requestBody",
    VDict [("content",
            VDict [("application/json", VDict [("body", VStr body)])])])].

Definition sample_event (api_path body : string) : value :=
  VDict (sample_fields api_path body).

(** The body that asks about i-123. *)
Definition sample_body : string :=
  Json.dumps (VDict [("instance_id", VStr "i-123")]).

(** ** Vocabulary of the further properties *)

(** The line the [except] block prints. *)
Definition error_line (instance_id : value) (e : exn) : string :=
  "Error retrieving data for " ++ py_str instance_id ++ ": " ++ exn_text e.

Definition is_print (ev : call) : bool :=
  match ev with
  | Call_print _ => true
  | _ => false
  end.

(** The lines printed among [calls]. *)
Definition printed (calls : list call) : list call := filter is_print calls.

(** The value of a key that may be absent: what [.get(k)] gives. *)
Definition get_or_none (k : string) (d : list (string * value)) : value :=
  match dict_lookup k d with
  | Some v => v
  | None => VNone
  end.

(** An inventory whose first record has no type. *)
Definition typeless_world : world :=
  {| ec2_describe_instances := fun _ =>
       Ok (VDict [("Reservations",
                   VList [VDict [("Instances",
                                  VList [VDict [("InstanceId",
                                                 VStr "i-123")]])]])]);
     datetime_now := sample_clock;
     cloudwatch_get_metric_statistics := fun _ => Ok (sample_metrics []) |}.

(** Metrics whose second datapoint has no Average. *)
Definition gappy_world : world :=
  {| ec2_describe_instances := fun _ => Ok sample_inventory;
     datetime_now := sample_clock;
     cloudwatch_get_metric_statistics := fun _ =>
       Ok (VDict [("Datapoints",
                   VList [datapoint 10;
                          VDict [("Timestamp",
                                  VStr "2024-05-01 11:00:00+00:00")];
                          datapoint 30])]) |}.

(** Metrics whose Datapoints is None. *)
Definition null_world : world :=
  {| ec2_describe_instances := fun _ => Ok sample_inventory;
     datetime_now := sample_clock;
     cloudwatch_get_metric_statistics := fun _ =>
       Ok (VDict [("Label", VStr "CPUUtilization"); ("Datapoints", VNone)]) |}.

(** An event without httpMethod. *)
Definition methodless_fields : list (string * value) :=
  [("actionGroup", VStr "CostActions");
   ("apiPath", VStr "/get_ec2_cpu_utilization");
   ("requestBody",
    VDict [("content",
            VDict [("application/json",
                    VDict [("body", VStr sample_body)])])])].

(** * The codec reads back what it wrote *)

(** ** Strings and numerals *)

Lemma append_assoc (a b c : string) : (a ++ b) ++ c = a ++ (b ++ c).
Proof. induction a as [|x a IH]; simpl; [reflexivity | now rewrite IH]. Qed.

Lemma append_empty (a : string) : a ++ "" = a.
Proof. induction a as [|x a IH]; simpl; [reflexivity | now rewrite IH]. Qed.

Lemma length_append (a b : string) :
  String.length (a ++ b) = (String.length a + String.length b)%nat.
Proof. induction a as [|x a IH]; simpl; [reflexivity | now rewrite IH]. Qed.

Lemma char_code_range (c : ascii) : 0 <= char_code c < 256.
Proof.
  unfold char_code. pose proof (N_ascii_bounded c). lia.
Qed.

Lemma char_code_of_code (n : Z) :
  0 <= n < 256 -> char_code (char_of_code n) = n.
Proof.
  intros H. unfold char_code, char_of_code.
  rewrite N_ascii_embedding; lia.
Qed.

Lemma char_of_code_code (c : ascii) : char_of_code (char_code c) = c.
Proof.
  unfold char_code, char_of_code. rewrite N2Z.id. apply ascii_N_embedding.
Qed.

Lemma digit_char_value (d : Z) :
  0 <= d < 10 -> digit_value (digit_char d) = d.
Proof.
  intros H. unfold digit_value, digit_char. rewrite char_code_of_code; lia.
Qed.

Lemma digit_char_is_digit (d : Z) :
  0 <= d < 10 -> is_digit (digit_char d) = true.
Proof.
  intros H. unfold is_digit, digit_char. rewrite char_code_of_code by lia.
  apply andb_true_iff. split; apply Z.leb_le; lia.
Qed.

Lemma digit_char_zero (d : Z) :
  0 <= d < 10 -> digit_char d = "0"%char -> d = 0.
Proof.
  intros H E. apply (f_equal digit_value) in E.
  rewrite digit_char_value in E by exact H. exact E.
Qed.

Lemma digits_only_append (a b : string) :
  digits_only (a ++ b) = digits_only a && digits_only b.
Proof.
  induction a as [|x a IH]; simpl; [reflexivity|].
  now rewrite IH, andb_assoc.
Qed.

Lemma Z_of_digits_append (a b : string) (acc : Z) :
  Z_of_digits (a ++ b) acc = Z_of_digits b (Z_of_digits a acc).
Proof.
  revert acc. induction a as [|x a IH]; intros acc; simpl;
    [reflexivity | apply IH].
Qed.

Lemma digits_loop_acc (fuel : nat) (n : Z) (acc : string) :
  digits_loop fuel n acc = digits_loop fuel n "" ++ acc.
Proof.
  revert n acc. induction fuel as [|fuel IH]; intros n acc; simpl.
  - reflexivity.
  - destruct (n <? 10); [reflexivity|].
    rewrite IH. rewrite (IH _ (String _ "")). now rewrite append_assoc.
Qed.

Lemma digits_loop_step (fuel : nat) (n : Z) (acc : string) :
  digits_loop (S fuel) n acc
  = if n <? 10 then String (digit_char (n mod 10)) acc
    else digits_loop fuel (n / 10) (String (digit_char (n mod 10)) acc).
Proof. reflexivity. Qed.

Lemma numeral_one_digit (n : Z) :
  0 <= n < 10 -> numeral (str1 (digit_char (n mod 10))) n.
Proof.
  intros H. rewrite Z.mod_small by exact H. repeat split.
  - simpl. now rewrite digit_char_is_digit.
  - simpl. rewrite digit_char_value by exact H. lia.
  - exists (digit_char n), EmptyString. repeat split.
    now apply digit_char_zero.
Qed.

Lemma digits_loop_numeral (fuel : nat) (n : Z) :
  0 <= n < 2 ^ Z.of_nat (S fuel) ->
  numeral (digits_loop (S fuel) n "") n.
Proof.
  revert n. induction fuel as [|fuel IH]; intros n H.
  - change (2 ^ Z.of_nat 1) with 2 in H. simpl.
    destruct (n <? 10) eqn:E; [|apply Z.ltb_ge in E; lia].
    apply numeral_one_digit. lia.
  - rewrite digits_loop_step. destruct (n <? 10) eqn:E.
    + apply Z.ltb_lt in E. apply numeral_one_digit. lia.
    + apply Z.ltb_ge in E.
      assert (0 < n / 10 < 2 ^ Z.of_nat (S fuel)) as Hq.
      { split.
        - apply Z.div_str_pos. lia.
        - apply Z.div_lt_upper_bound; [lia|].
          replace (Z.of_nat (S (S fuel))) with (Z.of_nat (S fuel) + 1) in H
            by lia.
          rewrite Z.pow_add_r in H by lia. lia. }
      specialize (IH (n / 10) ltac:(lia)).
      rewrite digits_loop_acc.
      destruct IH as (Hd & Hv & c & t & Hs & Hz).
      pose proof (Z.mod_pos_bound n 10 ltac:(lia)) as Hm.
      repeat split.
      * rewrite digits_only_append, Hd. simpl.
        now rewrite digit_char_is_digit.
      * rewrite Z_of_digits_append, Hv. cbn [Z_of_digits str1].
        rewrite digit_char_value by exact Hm.
        pose proof (Z.div_mod n 10 ltac:(lia)). lia.
      * exists c, (t ++ str1 (digit_char (n mod 10))). split.
        -- rewrite Hs. reflexivity.
        -- intros Hc. destruct (Hz Hc) as [_ Hq0]. lia.
Qed.

Lemma digits_of_Z_numeral (n : Z) : 0 <= n -> numeral (digits_of_Z n) n.
Proof.
  intros H. unfold digits_of_Z. apply digits_loop_numeral.
  rewrite Nat2Z.inj_succ, Z2Nat.id by apply Z.log2_nonneg.
  destruct (Z.eq_dec n 0) as [->|Hn].
  - simpl. lia.
  - pose proof (Z.log2_spec n ltac:(lia)). lia.
Qed.

(** ** What follows a value in the text of [dumps] *)

Lemma delimiter_cases (c : ascii) :
  delimiter c = true -> c = ","%char \/ c = "]"%char \/ c = "}"%char.
Proof.
  unfold delimiter. rewrite !orb_true_iff, !Ascii.eqb_eq. tauto.
Qed.

Ltac by_delimiter H :=
  destruct (delimiter_cases _ H) as [-> | [-> | ->]].

Lemma take_digits_extends (s ds r rest : string) :
  Json.take_digits s = (ds, r) -> delimited rest ->
  Json.take_digits (s ++ rest) = (ds, r ++ rest).
Proof.
  intros H D. revert ds r H. induction s as [|c s IH]; intros ds r H.
  - injection H as <- <-. destruct rest as [|c t]; [reflexivity|].
    simpl in D. by_delimiter D; reflexivity.
  - simpl in *. destruct (is_digit c).
    + destruct (Json.take_digits s) as [ds' r'].
      rewrite (IH _ _ eq_refl). now injection H as <- <-.
    + now injection H as <- <-.
Qed.

Lemma take_digits_all (s : string) :
  digits_only s = true -> Json.take_digits s = (s, EmptyString).
Proof.
  induction s as [|c s IH]; simpl; [reflexivity|].
  intros H. apply andb_true_iff in H as [Hc Hs].
  now rewrite Hc, (IH Hs).
Qed.

Lemma strip_prefix_extends (p tok r rest : string) :
  Json.strip_prefix p tok = Some r ->
  Json.strip_prefix p (tok ++ rest) = Some (r ++ rest).
Proof.
  revert tok. induction p as [|a p IH]; intros tok H; simpl in *.
  - now injection H as <-.
  - destruct tok as [|b tok]; [discriminate|]. simpl.
    destruct (Ascii.eqb a b); [now apply IH | discriminate].
Qed.

Lemma strip_prefix_none_extends (p tok rest : string) :
  Json.strip_prefix p tok = None -> delimited rest ->
  free_of_delimiters p = true ->
  Json.strip_prefix p (tok ++ rest) = None.
Proof.
  revert tok. induction p as [|a p IH]; intros tok H D F; simpl in *.
  - discriminate.
  - apply andb_true_iff in F as [Fa Fp].
    destruct tok as [|b tok]; simpl.
    + destruct rest as [|c t]; [reflexivity|].
      destruct (Ascii.eqb_spec a c) as [->|]; [|reflexivity].
      simpl in D. now rewrite D in Fa.
    + destruct (Ascii.eqb a b); [now apply IH | reflexivity].
Qed.

Lemma int_part_extends (s ip r rest : string) :
  Json.int_part s = Some (ip, r) -> delimited rest ->
  Json.int_part (s ++ rest) = Some (ip, r ++ rest).
Proof.
  intros H D. destruct s as [|c s]; [discriminate|]. simpl in *.
  destruct (Ascii.eqb c "0"); [now injection H as <- <-|].
  destruct (is_digit c); [|discriminate].
  destruct (Json.take_digits s) as [ds r'] eqn:E.
  rewrite (take_digits_extends _ _ _ _ E D). now injection H as <- <-.
Qed.

Lemma int_part_none_extends (s rest : string) :
  Json.int_part s = None -> delimited rest ->
  Json.int_part (s ++ rest) = None.
Proof.
  intros H D. destruct s as [|c s]; simpl in *.
  - destruct rest as [|c t]; [reflexivity|].
    simpl in D. by_delimiter D; reflexivity.
  - destruct (Ascii.eqb c "0"); [discriminate|].
    destruct (is_digit c); [|reflexivity].
    destruct (Json.take_digits s); discriminate.
Qed.

Lemma frac_part_extends (s fp r rest : string) :
  Json.frac_part s = (fp, r) -> delimited rest ->
  Json.frac_part (s ++ rest) = (fp, r ++ rest).
Proof.
  intros H D. destruct s as [|c s]; simpl in *.
  - injection H as <- <-. destruct rest as [|c t]; [reflexivity|].
    simpl in D. by_delimiter D; reflexivity.
  - destruct (Ascii.eqb c "."); [|now injection H as <- <-].
    destruct (Json.take_digits s) as [ds r'] eqn:E.
    rewrite (take_digits_extends _ _ _ _ E D).
    destruct ds; now injection H as <- <-.
Qed.

Lemma exp_sign_extends (s t rest : string) (neg : bool) :
  Json.exp_sign s = (neg, t) -> delimited rest ->
  Json.exp_sign (s ++ rest) = (neg, t ++ rest).
Proof.
  intros H D. destruct s as [|c s]; simpl in *.
  - injection H as <- <-. destruct rest as [|c t']; [reflexivity|].
    simpl in D. by_delimiter D; reflexivity.
  - destruct (Ascii.eqb c "-"); [now injection H as <- <-|].
    destruct (Ascii.eqb c "+"); now injection H as <- <-.
Qed.

Lemma exp_part_extends (s r rest : string) (ex : option Z) :
  Json.exp_part s = (ex, r) -> delimited rest ->
  Json.exp_part (s ++ rest) = (ex, r ++ rest).
Proof.
  intros H D. destruct s as [|c s]; simpl in *.
  - injection H as <- <-. destruct rest as [|c t]; [reflexivity|].
    simpl in D. by_delimiter D; reflexivity.
  - destruct (Ascii.eqb c "e" || Ascii.eqb c "E");
      [|now injection H as <- <-].
    destruct (Json.exp_sign s) as [neg s'] eqn:Es.
    rewrite (exp_sign_extends _ _ _ _ Es D).
    destruct (Json.take_digits s') as [ds r'] eqn:E.
    rewrite (take_digits_extends _ _ _ _ E D).
    destruct ds; now injection H as <- <-.
Qed.

Lemma minus_sign_extends (s t rest : string) (neg : bool) :
  Json.minus_sign s = (neg, t) -> delimited rest ->
  Json.minus_sign (s ++ rest) = (neg, t ++ rest).
Proof.
  intros H D. destruct s as [|c s]; simpl in *.
  - injection H as <- <-. destruct rest as [|c t']; [reflexivity|].
    simpl in D. by_delimiter D; reflexivity.
  - destruct (Ascii.eqb c "-"); now injection H as <- <-.
Qed.

Lemma scan_number_extends (tok r rest : string) (v : value) :
  Json.scan_number tok = Some (v, r) -> delimited rest ->
  Json.scan_number (tok ++ rest) = Some (v, r ++ rest).
Proof.
  unfold Json.scan_number. intros H D.
  destruct (Json.minus_sign tok) as [neg s1] eqn:E0.
  rewrite (minus_sign_extends _ _ _ _ E0 D).
  destruct (Json.int_part s1) as [[ip s2]|] eqn:E1; [|discriminate].
  rewrite (int_part_extends _ _ _ _ E1 D).
  destruct (Json.frac_part s2) as [fp s3] eqn:E2.
  rewrite (frac_part_extends _ _ _ _ E2 D).
  destruct (Json.exp_part s3) as [ex s4] eqn:E3.
  rewrite (exp_part_extends _ _ _ _ E3 D).
  destruct fp, ex; now injection H as <- <-.
Qed.

Lemma scan_number_none_extends (tok rest : string) :
  Json.scan_number tok = None -> delimited rest ->
  Json.scan_number (tok ++ rest) = None.
Proof.
  unfold Json.scan_number. intros H D.
  destruct (Json.minus_sign tok) as [neg s1] eqn:E0.
  rewrite (minus_sign_extends _ _ _ _ E0 D).
  destruct (Json.int_part s1) as [[ip s2]|] eqn:E1.
  - destruct (Json.frac_part s2) as [fp s3].
    destruct (Json.exp_part s3) as [ex s4].
    destruct fp, ex; discriminate.
  - now rewrite (int_part_none_extends _ _ E1 D).
Qed.

Lemma scan_atom_extends (tok r rest : string) (v : value) :
  Json.scan_atom tok = Ok (v, r) -> delimited rest ->
  Json.scan_atom (tok ++ rest) = Ok (v, r ++ rest).
Proof.
  unfold Json.scan_atom. intros H D.
  repeat match type of H with
    | context [Json.strip_prefix ?p tok] =>
        let E := fresh "E" in
        destruct (Json.strip_prefix p tok) as [?|] eqn:E;
        [ rewrite (strip_prefix_extends _ _ _ rest E);
          now injection H as <- <-
        | rewrite (strip_prefix_none_extends _ _ _ E D eq_refl) ]
    | context [Json.scan_number tok] =>
        let E := fresh "E" in
        destruct (Json.scan_number tok) as [[? ?]|] eqn:E;
        [ rewrite (scan_number_extends _ _ _ _ E D);
          now injection H as <- <-
        | rewrite (scan_number_none_extends _ _ E D) ]
    end.
  discriminate.
Qed.

(** ** Reading back what [dumps] wrote *)

Lemma json_exact_list (l : list value) :
  json_exact (VList l) <-> Forall json_exact l.
Proof.
  induction l as [|x l IH]; simpl.
  - split; auto.
  - split.
    + intros [Hx Hl]. constructor; [exact Hx | now apply IH].
    + intros H. inversion H; subst. split; [assumption | now apply IH].
Qed.

Lemma json_exact_dict (d : list (string * value)) :
  json_exact (VDict d) <->
  NoDup (map fst d) /\ Forall (fun kv => json_exact (snd kv)) d.
Proof.
  simpl. apply and_iff_compat_l.
  induction d as [|[k x] d IH]; simpl.
  - split; auto.
  - split.
    + intros [Hx Hd]. constructor; [exact Hx | now apply IH].
    + intros H. inversion H; subst. split; [assumption | now apply IH].
Qed.

Lemma is_ws_cases (c : ascii) :
  Json.is_ws c = true ->
  c = " "%char \/ c = "009"%char \/ c = "010"%char \/ c = "013"%char.
Proof.
  unfold Json.is_ws. rewrite !orb_true_iff, !Z.eqb_eq.
  intros H. rewrite <- (char_of_code_code c).
  destruct H as [[[-> | ->] | ->] | ->]; auto.
Qed.

Lemma scan_atom_head (tok r : string) (v : value) :
  Json.scan_atom tok = Ok (v, r) -> head_ok tok.
Proof.
  intros H. destruct tok as [|c t]; [discriminate|]. simpl. split.
  - destruct (Json.is_ws c) eqn:W; [|reflexivity]. exfalso.
    destruct (is_ws_cases c W) as [-> | [-> | [-> | ->]]];
      vm_compute in H; discriminate.
  - intros ->. vm_compute in H. discriminate.
Qed.

Lemma parse_value_step (fuel : nat) (c : ascii) (s1 : string) :
  Ascii.eqb c dquote = false ->
  Ascii.eqb c "{" = false ->
  Ascii.eqb c "[" = false ->
  Json.parse_value (S fuel) (String c s1) = Json.scan_atom (String c s1).
Proof. intros A B C. simpl. now rewrite A, B, C. Qed.

Lemma parse_atom (tok rest : string) (v : value) (fuel : nat) :
  Json.scan_atom tok = Ok (v, EmptyString) -> delimited rest ->
  Json.parse_value (S fuel) (tok ++ rest) = Ok (v, rest).
Proof.
  intros H D. pose proof (scan_atom_extends _ _ _ _ H D) as E.
  destruct tok as [|c t]; [discriminate|].
  change (String c t ++ rest) with (String c (t ++ rest)) in *.
  rewrite parse_value_step; [exact E | | |];
    match goal with
    | |- Ascii.eqb c ?x = false => destruct (Ascii.eqb_spec c x) as [->|]
    end; try reflexivity; vm_compute in H; discriminate.
Qed.

(** *** Strings *)

Lemma scanstring_escape (c : ascii) (tail : string) :
  Json.scanstring (Json.escape_char c ++ tail)
  = Json.push c (Json.scanstring tail).
Proof.
  destruct c as [[] [] [] [] [] [] [] []]; reflexivity.
Qed.

Lemma scanstring_reads_back (s rest : string) :
  Json.scanstring (Json.escape_chars s ++ String dquote rest) = Ok (s, rest).
Proof.
  induction s as [|c s IH].
  - reflexivity.
  - cbn [Json.escape_chars]. rewrite append_assoc, scanstring_escape, IH.
    reflexivity.
Qed.

Lemma encode_str_append (s rest : string) :
  Json.encode_str s ++ rest
  = String dquote (Json.escape_chars s ++ String dquote rest).
Proof.
  unfold Json.encode_str. simpl. now rewrite append_assoc.
Qed.

Lemma parse_str (s rest : string) (fuel : nat) :
  Json.parse_value (S fuel) (Json.encode_str s ++ rest) = Ok (VStr s, rest).
Proof.
  rewrite encode_str_append. cbn [Json.parse_value].
  change (Ascii.eqb dquote dquote) with true. cbv iota.
  now rewrite scanstring_reads_back.
Qed.

(** *** Ints *)

Lemma scan_int (z : Z) :
  Json.scan_number (string_of_Z z) = Some (VInt z, EmptyString).
Proof.
  unfold string_of_Z. destruct (z <? 0) eqn:E.
  - apply Z.ltb_lt in E.
    destruct (digits_of_Z_numeral (- z) ltac:(lia))
      as (Hd & Hv & c & t & Hs & Hz).
    rewrite Hs in *. unfold Json.scan_number. cbn [Json.minus_sign].
    change (Ascii.eqb "-" "-") with true. cbv iota.
    simpl in Hd. apply andb_true_iff in Hd as [Hc Ht].
    unfold Json.int_part.
    destruct (Ascii.eqb_spec c "0") as [->|_];
      [destruct (Hz eq_refl); lia|].
    rewrite Hc, (take_digits_all _ Ht).
    cbn [Json.frac_part Json.exp_part].
    rewrite Hv. f_equal. f_equal. f_equal. lia.
  - apply Z.ltb_ge in E.
    destruct (digits_of_Z_numeral z E) as (Hd & Hv & c & t & Hs & Hz).
    rewrite Hs in *. unfold Json.scan_number.
    simpl in Hd. apply andb_true_iff in Hd as [Hc Ht].
    assert (Ascii.eqb c "-" = false) as Hm.
    { destruct (Ascii.eqb_spec c "-") as [->|]; [discriminate|reflexivity]. }
    cbn [Json.minus_sign]. rewrite Hm. unfold Json.int_part.
    destruct (Ascii.eqb_spec c "0") as [->|_].
    + destruct (Hz eq_refl) as [-> Hz0]. subst z. reflexivity.
    + rewrite Hc, (take_digits_all _ Ht).
      cbn [Json.frac_part Json.exp_part]. now rewrite Hv.
Qed.

Lemma scan_atom_int (z : Z) :
  Json.scan_atom (string_of_Z z) = Ok (VInt z, EmptyString).
Proof.
  pose proof (scan_int z) as H. unfold Json.scan_atom.
  rewrite H.
  assert (forall p, free_of_delimiters p = true ->
             (exists a p', p = String a p' /\ is_digit a = false
                           /\ a <> "-"%char) ->
             Json.strip_prefix p (string_of_Z z) = None) as N.
  { intros p _ (a & p' & -> & Ha & Hm).
    unfold string_of_Z. destruct (z <? 0) eqn:E.
    - simpl. destruct (Ascii.eqb_spec a "-"); [contradiction|reflexivity].
    - apply Z.ltb_ge in E.
      destruct (digits_of_Z_numeral z E) as (Hd & _ & c & t & Hs & _).
      rewrite Hs in *. simpl in *.
      apply andb_true_iff in Hd as [Hc _].
      destruct (Ascii.eqb_spec a c) as [->|]; [congruence|reflexivity]. }
  rewrite !N; try reflexivity; eexists _, _; (split; [reflexivity|]);
    split; (reflexivity || discriminate).
Qed.

(** *** The head of a value's text *)

Lemma head_ok_append (s t : string) : head_ok s -> head_ok (s ++ t).
Proof. destruct s; simpl; [contradiction | auto]. Qed.

Lemma skip_ws_head (s : string) : head_ok s -> Json.skip_ws s = s.
Proof.
  destruct s as [|c s]; simpl; [contradiction|]. now intros [-> _].
Qed.

Lemma skip_ws_char (c : ascii) (s : string) :
  Json.is_ws c = false -> Json.skip_ws (String c s) = String c s.
Proof. intros H. simpl. now rewrite H. Qed.

Lemma skip_ws_space (s : string) :
  Json.skip_ws (String " " s) = Json.skip_ws s.
Proof. reflexivity. Qed.

Ltac decide_chars :=
  repeat match goal with
    | |- context [Ascii.eqb ?a ?b] =>
        let r := eval vm_compute in (Ascii.eqb a b) in
        change (Ascii.eqb a b) with r
    end; cbv iota.

Lemma dumps_head (v : value) (t : string) :
  json_exact v -> head_ok (Json.dumps v ++ t).
Proof.
  intros H. apply head_ok_append.
  destruct v as [| [] | z | f | s | l | d]; simpl;
    try (split; [reflexivity | discriminate]).
  - exact (scan_atom_head _ _ _ (scan_atom_int z)).
  - exact (scan_atom_head _ _ _ H).
Qed.

(** *** Arrays *)

Lemma join_elements (x : value) (l : list value) (rest : string) :
  join ", " (map Json.dumps (x :: l)) ++ String "]" rest
  = elements_text x l rest.
Proof.
  revert x. induction l as [|y l IH]; intros x.
  - reflexivity.
  - change (join ", " (map Json.dumps (x :: y :: l)))
      with (Json.dumps x ++ ", " ++ join ", " (map Json.dumps (y :: l))).
    rewrite !append_assoc. cbn [elements_text]. now rewrite <- IH.
Qed.

Lemma elements_head (x : value) (l : list value) (rest : string) :
  json_exact x -> head_ok (elements_text x l rest).
Proof. intros H. destruct l; now apply dumps_head. Qed.

Lemma parse_elements_step (fuel : nat) (s : string) :
  Json.parse_elements (S fuel) s
  = match Json.parse_value fuel s with
    | Raised e => Raised e
    | Ok (v, r) =>
        match Json.skip_ws r with
        | String c r1 =>
            if Ascii.eqb c "]" then Ok ([v], r1)
            else if Ascii.eqb c "," then
              match Json.parse_elements fuel (Json.skip_ws r1) with
              | Ok (l, r2) => Ok (v :: l, r2)
              | Raised e => Raised e
              end
            else Json.JSONDecodeError "Expecting ',' delimiter"
        | EmptyString => Json.JSONDecodeError "Expecting ',' delimiter"
        end
    end.
Proof. reflexivity. Qed.

Lemma parse_elements_reads_back (l : list value) :
  Forall reads_back l -> Forall json_exact l ->
  forall x fuel rest,
    reads_back x -> json_exact x ->
    (list_sum (map (fun x => S (size x)) (x :: l)) <= fuel)%nat ->
    Json.parse_elements fuel (elements_text x l rest) = Ok (x :: l, rest).
Proof.
  induction l as [|y l IH]; intros HP HE x fuel rest Hx Ex Hf;
    (destruct fuel as [|fuel]; [simpl in Hf; lia|]);
    rewrite parse_elements_step; cbn [elements_text];
    cbn [map list_sum fold_right] in Hf.
  - rewrite (Hx Ex) by (simpl; auto; lia). reflexivity.
  - rewrite (Hx Ex) by (simpl; auto; lia).
    inversion HP; inversion HE; subst.
    rewrite skip_ws_char by reflexivity. cbv iota. decide_chars.
    rewrite skip_ws_space.
    rewrite (skip_ws_head _ (elements_head y l rest ltac:(assumption))).
    rewrite IH; auto. cbn [map list_sum fold_right]. lia.
Qed.

(** *** Objects *)

Lemma join_members (k : string) (x : value) (d : list (string * value))
  (rest : string) :
  join ", " (map member ((k, x) :: d)) ++ String "}" rest
  = String dquote (members_text k x d rest).
Proof.
  revert k x. induction d as [|[k' y] d IH]; intros k x.
  - cbn [map join member members_text]. unfold Json.member_text.
    rewrite append_assoc, encode_str_append. now rewrite append_assoc.
  - change (join ", " (map member ((k, x) :: (k', y) :: d)))
      with (member (k, x) ++ ", " ++ join ", " (map member ((k', y) :: d))).
    rewrite !append_assoc. rewrite IH. cbn [member members_text].
    unfold Json.member_text.
    rewrite append_assoc, encode_str_append. now rewrite append_assoc.
Qed.

Lemma parse_members_step (fuel : nat) (s : string) :
  Json.parse_members (S fuel) s
  = match Json.scanstring s with
    | Raised e => Raised e
    | Ok (k, r) =>
        match Json.skip_ws r with
        | String c r1 =>
            if Ascii.eqb c ":" then
              match Json.parse_value fuel (Json.skip_ws r1) with
              | Raised e => Raised e
              | Ok (v, r2) =>
                  match Json.skip_ws r2 with
                  | String c3 r3 =>
                      if Ascii.eqb c3 "}" then Ok ([(k, v)], r3)
                      else if Ascii.eqb c3 "," then
                        match Json.skip_ws r3 with
                        | String c4 r4 =>
                            if Ascii.eqb c4 dquote then
                              match Json.parse_members fuel r4 with
                              | Ok (l, r5) => Ok ((k, v) :: l, r5)
                              | Raised e => Raised e
                              end
                            else Json.JSONDecodeError
                              "Expecting property name enclosed in double quotes"
                        | EmptyString => Json.JSONDecodeError
                            "Expecting property name enclosed in double quotes"
                        end
                      else Json.JSONDecodeError "Expecting ',' delimiter"
                  | EmptyString =>
                      Json.JSONDecodeError "Expecting ',' delimiter"
                  end
              end
            else Json.JSONDecodeError "Expecting ':' delimiter"
        | EmptyString => Json.JSONDecodeError "Expecting ':' delimiter"
        end
    end.
Proof. reflexivity. Qed.

Lemma parse_members_reads_back (d : list (string * value)) :
  Forall (fun kv => reads_back (snd kv)) d ->
  Forall (fun kv => json_exact (snd kv)) d ->
  forall k x fuel rest,
    reads_back x -> json_exact x ->
    (list_sum (map (fun '(_, x) => S (size x)) ((k, x) :: d)) <= fuel)%nat ->
    Json.parse_members fuel (members_text k x d rest)
    = Ok ((k, x) :: d, rest).
Proof.
  induction d as [|[k' y] d IH]; intros HP HE k x fuel rest Hx Ex Hf;
    (destruct fuel as [|fuel]; [simpl in Hf; lia|]);
    rewrite parse_members_step; cbn [members_text];
    cbn [map list_sum fold_right] in Hf;
    rewrite scanstring_reads_back;
    rewrite skip_ws_char by reflexivity; cbv iota; decide_chars;
    rewrite skip_ws_space;
    rewrite (skip_ws_head _ (dumps_head x _ Ex)).
  - rewrite (Hx Ex) by (simpl; auto; lia). reflexivity.
  - rewrite (Hx Ex) by (simpl; auto; lia).
    inversion HP; inversion HE; subst.
    rewrite skip_ws_char by reflexivity. cbv iota. decide_chars.
    rewrite skip_ws_space, skip_ws_char by reflexivity. cbv iota.
    decide_chars.
    rewrite IH; auto. cbn [map list_sum fold_right]. lia.
Qed.

Lemma dict_set_fresh (k : string) (v : value) (d : list (string * value)) :
  ~ In k (map fst d) -> dict_set k v d = (d ++ [(k, v)])%list.
Proof.
  induction d as [|[k' v'] d IH]; simpl; intros H; [reflexivity|].
  destruct (String.eqb_spec k' k) as [->|_]; [tauto|].
  rewrite IH; tauto.
Qed.

Lemma dict_of_pairs_from (d acc : list (string * value)) :
  NoDup (map fst (acc ++ d)%list) ->
  fold_left (fun d '(k, v) => dict_set k v d) d acc = (acc ++ d)%list.
Proof.
  revert acc. induction d as [|[k v] d IH]; intros acc H; simpl.
  - now rewrite app_nil_r.
  - rewrite dict_set_fresh.
    + rewrite IH; rewrite <- app_assoc; [reflexivity | exact H].
    + rewrite map_app in H. simpl in H. apply NoDup_remove_2 in H.
      intros Hin. apply H. apply in_or_app. now left.
Qed.

Lemma dict_of_pairs_distinct (d : list (string * value)) :
  NoDup (map fst d) -> Json.dict_of_pairs d = d.
Proof. intros H. apply (dict_of_pairs_from d [] H). Qed.

(** *** Values *)

Lemma dumps_list_text (l : list value) (rest : string) :
  Json.dumps (VList l) ++ rest
  = String "[" (join ", " (map Json.dumps l) ++ String "]" rest).
Proof. cbn [Json.dumps]. simpl. now rewrite append_assoc. Qed.

Lemma dumps_dict_text (d : list (string * value)) (rest : string) :
  Json.dumps (VDict d) ++ rest
  = String "{" (join ", " (map member d) ++ String "}" rest).
Proof.
  cbn [Json.dumps]. simpl. rewrite append_assoc. reflexivity.
Qed.

Lemma parse_array_step (fuel : nat) (s1 : string) :
  Json.parse_value (S fuel) (String "[" s1)
  = match Json.skip_ws s1 with
    | String c2 s2 =>
        if Ascii.eqb c2 "]" then Ok (VList [], s2)
        else
          match Json.parse_elements fuel (String c2 s2) with
          | Ok (l, r) => Ok (VList l, r)
          | Raised e => Raised e
          end
    | EmptyString => Json.JSONDecodeError "Expecting value"
    end.
Proof. reflexivity. Qed.

Lemma parse_object_step (fuel : nat) (s1 : string) :
  Json.parse_value (S fuel) (String "{" s1)
  = match Json.skip_ws s1 with
    | String c2 s2 =>
        if Ascii.eqb c2 "}" then Ok (VDict [], s2)
        else if Ascii.eqb c2 dquote then
          match Json.parse_members fuel s2 with
          | Ok (pairs, r) => Ok (VDict (Json.dict_of_pairs pairs), r)
          | Raised e => Raised e
          end
        else Json.JSONDecodeError
               "Expecting property name enclosed in double quotes"
    | EmptyString =>
        Json.JSONDecodeError
          "Expecting property name enclosed in double quotes"
    end.
Proof. reflexivity. Qed.

Lemma parse_dumps (v : value) : reads_back v.
Proof.
  induction v as [| b | z | f | s | l IH | d IH] using value_induction;
    intros E fuel rest Hf D;
    (destruct fuel as [|fuel]; [simpl in Hf; lia|]).
  - now apply parse_atom.
  - destruct b; now apply parse_atom.
  - apply parse_atom; [apply scan_atom_int | exact D].
  - apply parse_atom; [exact E | exact D].
  - apply parse_str.
  - rewrite dumps_list_text, parse_array_step.
    destruct l as [|x l]; [reflexivity|].
    apply json_exact_list in E.
    inversion IH as [|? ? Hx Hl]; inversion E as [|? ? Ex El]; subst.
    rewrite join_elements.
    pose proof (elements_head x l rest Ex) as Hh.
    rewrite (skip_ws_head _ Hh).
    destruct (elements_text x l rest) as [|c2 s2] eqn:T; [contradiction|].
    destruct Hh as [_ Hc].
    destruct (Ascii.eqb_spec c2 "]") as [->|_]; [congruence|].
    rewrite <- T, (parse_elements_reads_back l Hl El x fuel rest Hx Ex);
      [reflexivity|].
    cbn [size] in Hf. lia.
  - rewrite dumps_dict_text, parse_object_step.
    destruct d as [|[k x] d]; [reflexivity|].
    apply json_exact_dict in E as [Hn E].
    inversion IH as [|? ? Hx Hl]; inversion E as [|? ? Ex El]; subst.
    rewrite join_members.
    rewrite skip_ws_char by reflexivity. decide_chars.
    rewrite (parse_members_reads_back d Hl El k x fuel rest Hx Ex).
    + now rewrite dict_of_pairs_distinct.
    + cbn [size] in Hf. lia.
Qed.

(** *** The whole text *)

Lemma join_length_bound (texts : list string) (n : nat) :
  (n <= fold_right (fun t m => String.length t + m + 2) 0 texts)%nat ->
  (n <= String.length (join ", " texts) + 2)%nat.
Proof.
  revert n. induction texts as [|t texts IH]; intros n H.
  - simpl in *. lia.
  - destruct texts as [|u texts]; [simpl in *; lia|].
    change (join ", " (t :: u :: texts))
      with (t ++ ", " ++ join ", " (u :: texts)).
    rewrite !length_append.
    change (String.length ", ") with 2%nat.
    cbn [fold_right] in H, IH.
    specialize (IH (n - String.length t - 2)%nat ltac:(lia)). lia.
Qed.

Lemma member_length (k : string) (x : value) :
  (String.length (Json.dumps x)
   <= String.length (Json.member_text k (Json.dumps x)))%nat.
Proof.
  unfold Json.member_text. rewrite !length_append. lia.
Qed.

Lemma size_bound (v : value) :
  (size v <= 2 * String.length (Json.dumps v) + 2)%nat.
Proof.
  induction v as [| b | z | f | s | l IH | d IH] using value_induction;
    try (simpl; lia).
  - cbn [size Json.dumps].
    change (String.length ("[" ++ join ", " (map Json.dumps l) ++ "]"))
      with (S (String.length (join ", " (map Json.dumps l) ++ "]"))).
    rewrite length_append. change (String.length "]") with 1%nat.
    assert (list_sum (map (fun x => S (size x)) l)
            <= 2 * fold_right (fun t m => String.length t + m + 2) 0
                     (map Json.dumps l))%nat as B.
    { induction IH as [|x l Hx _ IHl]; cbn [map list_sum fold_right];
        [lia|].
      unfold list_sum in IHl. lia. }
    pose proof (join_length_bound (map Json.dumps l) _ (Nat.le_refl _)).
    lia.
  - cbn [size Json.dumps].
    set (texts := map (fun '(k, x) => Json.member_text k (Json.dumps x)) d).
    change (String.length ("{" ++ join ", " texts ++ "}"))
      with (S (String.length (join ", " texts ++ "}"))).
    rewrite length_append. change (String.length "}") with 1%nat.
    assert (list_sum (map (fun '(_, x) => S (size x)) d)
            <= 2 * fold_right (fun t m => String.length t + m + 2) 0 texts)%nat
      as B.
    { subst texts.
      induction IH as [|[k x] d Hx _ IHd]; cbn [map list_sum fold_right];
        [lia|].
      cbn [snd] in Hx. unfold list_sum in IHd.
      pose proof (member_length k x). lia. }
    pose proof (join_length_bound texts _ (Nat.le_refl _)).
    lia.
Qed.

Lemma loads_dumps (v : value) :
  json_exact v -> Json.loads (VStr (Json.dumps v)) = Ok v.
Proof.
  intros E. unfold Json.loads, Json.loads_text.
  pose proof (dumps_head v EmptyString E) as Hh. rewrite append_empty in Hh.
  rewrite (skip_ws_head _ Hh).
  rewrite <- (append_empty (Json.dumps v)) at 2.
  rewrite (parse_dumps v E); [reflexivity | | exact I].
  pose proof (size_bound v). lia.
Qed.

(** * The resolver and the handler *)

(** ** Running the resolver *)

Lemma PyFloat_of_int_zero : float_of_int 0 = Ok 0%float.
Proof. reflexivity. Qed.

Lemma round2_zero : PyFloat.round2 0 = 0%float.
Proof. reflexivity. Qed.

Lemma lookup_runs (w : world) (instance_id : value) (log : list call) :
  exists o calls,
    lookup w instance_id log = (o, (log ++ calls)%list) /\
    lookup_run w instance_id o calls.
Proof.
  unfold lookup, describe_instances, now, get_metric_statistics, bind, emit,
    lift, ret.
  destruct (ec2_describe_instances w (VList [instance_id])) as [resp|e] eqn:Hd.
  2:{ eexists _, _; split; [reflexivity|]. now apply Run_describe_raises. }
  destruct (instance_type_of resp) as [ty|e] eqn:Ht.
  2:{ eexists _, _; split; [reflexivity|]. now apply Run_no_type with resp. }
  fold (the_query w instance_id).
  destruct (cloudwatch_get_metric_statistics w (the_query w instance_id))
    as [cw|e] eqn:Hc.
  2:{ exists (Raised e), (full_trace w instance_id). split.
      - now rewrite <- !app_assoc.
      - now apply Run_metrics_raise with resp ty. }
  destruct (method_get cw "Datapoints" (VList [])) as [dps|e] eqn:Hg.
  2:{ exists (Raised e), (full_trace w instance_id). split.
      - now rewrite <- !app_assoc.
      - apply Run_average_raises with resp ty cw; auto. now rewrite Hg. }
  destruct (cpu_average_of dps) as [avg|e] eqn:Ha.
  2:{ exists (Raised e), (full_trace w instance_id). split.
      - now rewrite <- !app_assoc.
      - apply Run_average_raises with resp ty cw; auto.
        rewrite Hg; simpl. now rewrite Ha. }
  destruct (py_round2 avg) as [r|e] eqn:Hr.
  2:{ exists (Raised e), (full_trace w instance_id). split.
      - now rewrite <- !app_assoc.
      - apply Run_average_raises with resp ty cw; auto.
        rewrite Hg; simpl. rewrite Ha; simpl. exact Hr. }
  exists (Ok (success_summary instance_id ty r)), (full_trace w instance_id).
  split.
  - now rewrite <- !app_assoc.
  - apply Run_success with resp cw; auto.
    rewrite Hg; simpl. rewrite Ha; simpl. exact Hr.
Qed.

Lemma resolver_runs (w : world) (instance_id : value) :
  exists o calls,
    lookup_run w instance_id o calls /\
    run (get_ec2_cpu_utilization w instance_id) = resolved instance_id o calls.
Proof.
  destruct (lookup_runs w instance_id []) as (o & calls & Hl & Hr).
  exists o, calls. split; [exact Hr|].
  unfold run, get_ec2_cpu_utilization, try_except. rewrite Hl. simpl.
  destruct o; reflexivity.
Qed.

Lemma lookup_run_functional (w : world) (instance_id : value) o1 c1 o2 c2 :
  lookup_run w instance_id o1 c1 -> lookup_run w instance_id o2 c2 ->
  o1 = o2 /\ c1 = c2.
Proof.
  intros H1 H2.
  destruct H1; destruct H2;
    repeat match goal with
      | H : ?x = _, H' : ?x = _ |- _ => rewrite H in H'; inversion H'; subst; clear H'
      end; try discriminate; auto.
Qed.

Lemma resolver_run_is (w : world) (instance_id : value) o calls :
  lookup_run w instance_id o calls ->
  run (get_ec2_cpu_utilization w instance_id) = resolved instance_id o calls.
Proof.
  intros H. destruct (resolver_runs w instance_id) as (o' & c' & H' & E).
  destruct (lookup_run_functional _ _ _ _ _ _ H H') as [-> ->]. exact E.
Qed.

(** ** The average (lines 40 to 52) *)

Lemma counts_convert :
  forallb count_converts (seq 1 max_datapoints) = true.
Proof. vm_compute. reflexivity. Qed.

Lemma count_converts_upto (n : nat) :
  (1 <= n <= max_datapoints)%nat -> count_converts n = true.
Proof.
  intros H. pose proof counts_convert as A.
  rewrite forallb_forall in A. apply A. apply in_seq. lia.
Qed.

Lemma divide_by_count (t : float) (n : nat) :
  (1 <= n <= max_datapoints)%nat ->
  py_truediv (VFloat t) (VInt (Z.of_nat n))
  = Ok (VFloat (t / PyFloat.of_Z (Z.of_nat n))).
Proof.
  intros H. apply count_converts_upto in H. unfold count_converts in H.
  unfold py_truediv, as_int, float_of_int.
  destruct (PyFloat.of_int (Z.of_nat n)) as [g|] eqn:E; [|discriminate].
  unfold PyFloat.of_int in E.
  destruct (is_infinity (PyFloat.of_Z (Z.of_nat n))); [discriminate|].
  injection E as <-. unfold div_float.
  apply negb_true_iff in H. now rewrite H.
Qed.

Lemma sum_of_float_averages (dps : list value) (xs : list float) :
  Forall2 has_average dps xs ->
  forall acc,
    sum_of_averages dps (VFloat acc) = Ok (VFloat (fold_left PrimFloat.add xs acc)).
Proof.
  induction 1 as [|p x dps xs (d & -> & Hx) _ IH]; intros acc.
  - reflexivity.
  - cbn [sum_of_averages subscript_key]. rewrite Hx.
    cbn [and_then py_add fold_left]. apply IH.
Qed.

Lemma sum_from_int_zero (dps : list value) (xs : list float) :
  Forall2 has_average dps xs -> dps <> [] ->
  sum_of_averages dps (VInt 0) = Ok (VFloat (float_sum xs)).
Proof.
  intros H Hne. destruct H as [|p x dps xs (d & -> & Hx) Hrest]; [congruence|].
  cbn [sum_of_averages subscript_key]. rewrite Hx.
  cbn [and_then py_add add_int]. rewrite PyFloat_of_int_zero.
  apply (sum_of_float_averages _ _ Hrest).
Qed.

Lemma cpu_average_of_floats (dps : list value) (xs : list float) :
  Forall2 has_average dps xs -> dps <> [] ->
  (List.length dps <= max_datapoints)%nat ->
  cpu_average_of (VList dps) = Ok (VFloat (arithmetic_mean xs)).
Proof.
  intros H Hne Hlen. unfold cpu_average_of.
  destruct dps as [|p dps']; [congruence|]. cbn [truthy py_iter and_then].
  rewrite (sum_from_int_zero _ _ H Hne). cbn [and_then py_len].
  rewrite divide_by_count by (simpl in *; lia).
  unfold arithmetic_mean. now rewrite (Forall2_length H).
Qed.

(** C1: when the inventory names a type and the metrics client returns a
    non-empty list of datapoints, each with a float under ['Average'], the
    summary is the success summary and its average_cpu_utilization_24h is
    the unweighted mean of those floats, rounded to two decimals once, after
    the division. *)
Theorem average_is_rounded_mean
  (w : world) (instance_id resp ty cw : value)
  (dps : list value) (xs : list float) :
  ec2_describe_instances w (VList [instance_id]) = Ok resp ->
  instance_type_of resp = Ok ty ->
  cloudwatch_get_metric_statistics w (the_query w instance_id) = Ok cw ->
  method_get cw "Datapoints" (VList []) = Ok (VList dps) ->
  Forall2 has_average dps xs ->
  dps <> [] ->
  (List.length dps <= max_datapoints)%nat ->
  result_of (get_ec2_cpu_utilization w instance_id)
  = Ok (success_summary instance_id ty
          (VFloat (PyFloat.round2 (arithmetic_mean xs)))).
Proof.
  intros Hd Ht Hc Hg Ha Hne Hlen. unfold result_of.
  rewrite (resolver_run_is w instance_id
             (Ok (success_summary instance_id ty
                    (VFloat (PyFloat.round2 (arithmetic_mean xs)))))
             (full_trace w instance_id)); [reflexivity|].
  apply Run_success with resp cw; auto.
  rewrite Hg. cbn [and_then].
  rewrite (cpu_average_of_floats _ _ Ha Hne Hlen). reflexivity.
Qed.

(** C2: when the inventory names a type and the metrics call succeeds with
    no datapoint (the key absent, or an empty list), the summary is the
    success summary with average_cpu_utilization_24h exactly 0.0. *)
Theorem no_datapoints_average_zero
  (w : world) (instance_id resp ty cw : value) :
  ec2_describe_instances w (VList [instance_id]) = Ok resp ->
  instance_type_of resp = Ok ty ->
  cloudwatch_get_metric_statistics w (the_query w instance_id) = Ok cw ->
  method_get cw "Datapoints" (VList []) = Ok (VList []) ->
  result_of (get_ec2_cpu_utilization w instance_id)
  = Ok (success_summary instance_id ty (VFloat 0)).
Proof.
  intros Hd Ht Hc Hg. unfold result_of.
  rewrite (resolver_run_is w instance_id
             (Ok (success_summary instance_id ty (VFloat 0)))
             (full_trace w instance_id)); [reflexivity|].
  apply Run_success with resp cw; auto.
  rewrite Hg. reflexivity.
Qed.

(** ** The two shapes (lines 49 to 62) *)


(** ** Failures of the two clients (lines 17 to 62) *)

(** C4: when the inventory call raises, or the inventory names a type and
    the metrics call raises, the resolver does not raise: it returns the
    failure summary with the instance_id it was given, the text of that
    exception as error and the advisory message. *)
Theorem client_failure_is_summarised
  (w : world) (instance_id : value) (e : exn) :
  ec2_describe_instances w (VList [instance_id]) = Raised e \/
  (exists resp ty,
      ec2_describe_instances w (VList [instance_id]) = Ok resp /\
      instance_type_of resp = Ok ty /\
      cloudwatch_get_metric_statistics w (the_query w instance_id) = Raised e) ->
  result_of (get_ec2_cpu_utilization w instance_id)
  = Ok (VDict [("instance_id", instance_id);
               ("error", VStr (exn_text e));
               ("message",
                VStr ("Failed to retrieve data for " ++ py_str instance_id
                      ++ ". Check instance ID or permissions."))]).
Proof.
  intros [Hd | (resp & ty & Hd & Ht & Hc)]; unfold result_of.
  - rewrite (resolver_run_is w instance_id (Raised e)
               [Call_describe_instances (VList [instance_id])]);
      [reflexivity | now apply Run_describe_raises].
  - rewrite (resolver_run_is w instance_id (Raised e)
               (full_trace w instance_id));
      [reflexivity | now apply Run_metrics_raise with resp ty].
Qed.

(** ** The descriptor (lines 19 to 24) *)

Lemma resolver_lookups (w : world) (instance_id : value) :
  inventory_lookups (calls_of (get_ec2_cpu_utilization w instance_id))
  = [Call_describe_instances (VList [instance_id])].
Proof.
  destruct (resolver_runs w instance_id) as (o & calls & Hr & E).
  unfold calls_of. rewrite E. inversion Hr; subst; reflexivity.
Qed.



(** ** The handler (lines 65 to 91) *)

Lemma handler_runs (w : world) (event : value) :
  run (lambda_handler w event) = handler_steps w event.
Proof.
  unfold run, lambda_handler, handler_steps, instance_id_of, bind, lift,
    raise, ret, unsupported_path.
  destruct (subscript_key event "actionGroup") as [action|e]; [|reflexivity].
  destruct (subscript_key event "apiPath") as [api_path|e]; [|reflexivity].
  destruct (eq_str api_path supported_path); [|reflexivity].
  destruct (request_body_of event) as [body|e]; [|reflexivity].
  cbn [and_then].
  destruct (Json.loads body) as [parameters|e]; [|reflexivity].
  cbn [and_then].
  destruct (method_get parameters "instance_id" VNone) as [iid|e];
    [|reflexivity].
  unfold run.
  destruct (get_ec2_cpu_utilization w iid []) as [[result|e] calls];
    [|reflexivity].
  destruct (subscript_key event "httpMethod"); reflexivity.
Qed.

Lemma eq_str_true (a : value) (s : string) :
  eq_str a s = true <-> a = VStr s.
Proof.
  destruct a; simpl; try (split; [discriminate | intros H; discriminate]).
  rewrite String.eqb_eq. split; [now intros -> | now intros [= ->]].
Qed.

Lemma eq_str_false (a : value) (s : string) :
  eq_str a s = false <-> a <> VStr s.
Proof.
  rewrite <- eq_str_true. destruct (eq_str a s); split; congruence.
Qed.

Lemma resolver_returns (w : world) (instance_id : value) :
  exists summary calls,
    run (get_ec2_cpu_utilization w instance_id) = (Ok summary, calls).
Proof.
  destruct (resolver_runs w instance_id) as (o & calls & _ & E).
  rewrite E. destruct o; simpl; eauto.
Qed.

Lemma handler_calls (w : world) (event action instance_id : value) :
  subscript_key event "actionGroup" = Ok action ->
  subscript_key event "apiPath" = Ok (VStr supported_path) ->
  instance_id_of event = Ok instance_id ->
  calls_of (lambda_handler w event)
  = calls_of (get_ec2_cpu_utilization w instance_id).
Proof.
  intros Ha Hp Hi.
  unfold calls_of at 1. rewrite handler_runs. unfold handler_steps.
  rewrite Ha, Hp. cbn [eq_str]. rewrite String.eqb_refl, Hi.
  destruct (resolver_returns w instance_id) as (summary & calls & R).
  unfold calls_of. rewrite R.
  destruct (subscript_key event "httpMethod"); reflexivity.
Qed.

(** C5: for an event that has an actionGroup and an apiPath: when the
    apiPath is "/get_ec2_cpu_utilization" and the body yields an instance
    id, the calls the handler makes are those of the resolver on that id,
    and the inventory is asked about it; for any other apiPath the handler
    raises the exception that names the path, makes no call, and returns
    nothing. *)
Theorem routing_by_api_path (w : world) (event action api_path : value) :
  subscript_key event "actionGroup" = Ok action ->
  subscript_key event "apiPath" = Ok api_path ->
  (api_path = VStr "/get_ec2_cpu_utilization" ->
   forall instance_id,
     instance_id_of event = Ok instance_id ->
     calls_of (lambda_handler w event)
     = calls_of (get_ec2_cpu_utilization w instance_id) /\
     inventory_lookups (calls_of (lambda_handler w event))
     = [Call_describe_instances (VList [instance_id])])
  /\
  (api_path <> VStr "/get_ec2_cpu_utilization" ->
   run (lambda_handler w event)
   = (Raised (Exn "Exception" ("Unsupported API path: " ++ py_str api_path)),
      [])).
Proof.
  intros Ha Hp. split.
  - intros -> iid Hi.
    pose proof (handler_calls w event action iid Ha Hp Hi) as E.
    split; [exact E|]. rewrite E. apply resolver_lookups.
  - intros Hne. rewrite handler_runs. unfold handler_steps.
    rewrite Ha, Hp. apply eq_str_false in Hne. unfold supported_path.
    now rewrite Hne.
Qed.

(** C6: for an event whose apiPath is the supported one, with an
    actionGroup, an httpMethod and a body that yields an instance id, the
    handler returns the envelope that repeats the three inbound values,
    has httpStatusCode 200 and carries as body the JSON text of the summary
    the resolver returned, whichever shape it has. *)
Theorem envelope_echoes_request
  (w : world) (event action http_method instance_id : value) :
  subscript_key event "actionGroup" = Ok action ->
  subscript_key event "apiPath" = Ok (VStr "/get_ec2_cpu_utilization") ->
  subscript_key event "httpMethod" = Ok http_method ->
  instance_id_of event = Ok instance_id ->
  exists summary,
    result_of (get_ec2_cpu_utilization w instance_id) = Ok summary /\
    result_of (lambda_handler w event)
    = Ok (VDict
            [("response",
              VDict [("actionGroup", action);
                     ("apiPath", VStr "/get_ec2_cpu_utilization");
                     ("httpMethod", http_method);
                     ("httpStatusCode", VInt 200);
                     ("responseBody",
                      VDict [("application/json",
                              VDict [("body",
                                      VStr (Json.dumps summary))])])])]).
Proof.
  intros Ha Hp Hm Hi.
  destruct (resolver_returns w instance_id) as (summary & calls & R).
  exists summary. unfold result_of. rewrite R. split; [reflexivity|].
  rewrite handler_runs. unfold handler_steps.
  rewrite Ha, Hp. cbn [eq_str]. unfold supported_path.
  rewrite String.eqb_refl, Hi, R, Hm. reflexivity.
Qed.

(** C9: when the decoded body is an object without an instance_id, the
    handler takes None for it and still calls the resolver: the inventory
    is asked about [None]; and when the inventory raises on it, the handler
    returns the envelope around the failure summary whose instance_id is
    None (null in the body), and does not raise. *)
Theorem missing_instance_id_reaches_resolver
  (w : world) (event action http_method body : value)
  (parameters : list (string * value)) :
  subscript_key event "actionGroup" = Ok action ->
  subscript_key event "apiPath" = Ok (VStr "/get_ec2_cpu_utilization") ->
  subscript_key event "httpMethod" = Ok http_method ->
  request_body_of event = Ok body ->
  Json.loads body = Ok (VDict parameters) ->
  dict_lookup "instance_id" parameters = None ->
  inventory_lookups (calls_of (lambda_handler w event))
  = [Call_describe_instances (VList [VNone])]
  /\
  forall e,
    ec2_describe_instances w (VList [VNone]) = Raised e ->
    result_of (lambda_handler w event)
    = Ok (envelope action (VStr "/get_ec2_cpu_utilization") http_method
            (Json.dumps
               (VDict [("instance_id", VNone);
                       ("error", VStr (exn_text e));
                       ("message", VStr (failure_message VNone))]))).
Proof.
  intros Ha Hp Hm Hb Hl Hk.
  assert (instance_id_of event = Ok VNone) as Hi.
  { unfold instance_id_of. rewrite Hb. cbn [and_then]. rewrite Hl.
    cbn [and_then method_get]. now rewrite Hk. }
  split.
  - rewrite (handler_calls w event action VNone Ha Hp Hi).
    apply resolver_lookups.
  - intros e He. unfold result_of. rewrite handler_runs. unfold handler_steps.
    rewrite Ha, Hp. cbn [eq_str]. unfold supported_path.
    rewrite String.eqb_refl, Hi.
    rewrite (resolver_run_is w VNone (Raised e)
               [Call_describe_instances (VList [VNone])])
      by now apply Run_describe_raises.
    cbn [resolved]. now rewrite Hm.
Qed.

Lemma subscript_key_ok (v : value) (k : string) (x : value) :
  subscript_key v k = Ok x ->
  exists d, v = VDict d /\ dict_lookup k d = Some x.
Proof.
  destruct v; simpl; try discriminate.
  destruct (dict_lookup k d) eqn:E; [|discriminate].
  intros [= ->]. eauto.
Qed.

Lemma request_body_path (event body : value) :
  request_body_of event = Ok body -> dict_path body_path event = Some body.
Proof.
  unfold request_body_of, body_path. intros H.
  destruct (subscript_key event "requestBody") as [a|] eqn:E1; [|discriminate].
  cbn [and_then] in H.
  destruct (subscript_key a "content") as [b|] eqn:E2; [|discriminate].
  cbn [and_then] in H.
  destruct (subscript_key b "application/json") as [c|] eqn:E3;
    [|discriminate].
  cbn [and_then] in H.
  apply subscript_key_ok in E1 as (d1 & -> & L1).
  apply subscript_key_ok in E2 as (d2 & -> & L2).
  apply subscript_key_ok in E3 as (d3 & -> & L3).
  apply subscript_key_ok in H as (d4 & -> & L4).
  cbn [dict_path]. now rewrite L1, L2, L3, L4.
Qed.

(** C10: for an event (a dict) that lacks actionGroup, apiPath or
    httpMethod, or has no value under requestBody, content,
    application/json, body, or whose body text json.loads refuses, the
    handler raises: it returns no envelope. *)
Theorem malformed_event_raises (w : world) (d : list (string * value)) :
  dict_lookup "actionGroup" d = None \/
  dict_lookup "apiPath" d = None \/
  dict_lookup "httpMethod" d = None \/
  dict_path ["requestBody"; "content"; "application/json"; "body"] (VDict d)
  = None \/
  (exists s e, request_body_of (VDict d) = Ok (VStr s) /\
               Json.loads (VStr s) = Raised e) ->
  exists e, result_of (lambda_handler w (VDict d)) = Raised e.
Proof.
  intros H. unfold result_of. rewrite handler_runs. unfold handler_steps.
  destruct (subscript_key (VDict d) "actionGroup") as [action|e] eqn:Ea;
    [|simpl; eauto].
  destruct (subscript_key (VDict d) "apiPath") as [api_path|e] eqn:Ep;
    [|simpl; eauto].
  destruct (eq_str api_path supported_path); [|simpl; eauto].
  destruct (instance_id_of (VDict d)) as [iid|e] eqn:Ei; [|simpl; eauto].
  destruct (resolver_returns w iid) as (summary & calls & R). rewrite R.
  destruct (subscript_key (VDict d) "httpMethod") as [m|e] eqn:Em;
    [|simpl; eauto].
  exfalso.
  apply subscript_key_ok in Ea as (? & [= <-] & La).
  apply subscript_key_ok in Ep as (? & [= <-] & Lp).
  apply subscript_key_ok in Em as (? & [= <-] & Lm).
  unfold instance_id_of in Ei.
  destruct (request_body_of (VDict d)) as [body|] eqn:Eb; [|discriminate].
  cbn [and_then] in Ei.
  destruct (Json.loads body) as [parameters|] eqn:El; [|discriminate].
  apply request_body_path in Eb as Hpath. fold body_path in H.
  destruct H as [H | [H | [H | [H | (s & e & H1 & H2)]]]]; congruence.
Qed.

(** ** The body of the response (line 78) *)



(** ** The claims on sample runs *)

Lemma average_is_rounded_mean_witness :
  result_of (get_ec2_cpu_utilization (sample_world [10; 20; 30]%float)
               (VStr "i-123"))
  = Ok (success_summary (VStr "i-123") (VStr "t3.micro")
          (VFloat (PyFloat.round2 (arithmetic_mean [10; 20; 30]%float)))).
Proof.
  apply (average_is_rounded_mean (sample_world [10; 20; 30]%float)
           (VStr "i-123") sample_inventory (VStr "t3.micro")
           (sample_metrics [10; 20; 30]%float)
           (map datapoint [10; 20; 30]%float) [10; 20; 30]%float);
    try reflexivity.
  - repeat constructor; eexists; split; reflexivity.
  - discriminate.
  - unfold max_datapoints. simpl. lia.
Defined.

Lemma no_datapoints_average_zero_witness :
  result_of (get_ec2_cpu_utilization (sample_world []) (VStr "i-123"))
  = Ok (success_summary (VStr "i-123") (VStr "t3.micro") (VFloat 0)).
Proof.
  apply (no_datapoints_average_zero (sample_world []) (VStr "i-123")
           sample_inventory (VStr "t3.micro") (sample_metrics []));
    reflexivity.
Defined.

Lemma client_failure_is_summarised_witness :
  result_of (get_ec2_cpu_utilization unknown_world (VStr "i-999"))
  = Ok (VDict [("instance_id", VStr "i-999");
               ("error", VStr (exn_text not_found));
               ("message",
                VStr "Failed to retrieve data for i-999. Check instance ID or permissions.")])
  /\
  result_of (get_ec2_cpu_utilization throttled_world (VStr "i-123"))
  = Ok (VDict [("instance_id", VStr "i-123");
               ("error", VStr (exn_text throttled));
               ("message",
                VStr "Failed to retrieve data for i-123. Check instance ID or permissions.")]).
Proof.
  split.
  - apply (client_failure_is_summarised unknown_world (VStr "i-999")
             not_found).
    left. reflexivity.
  - apply (client_failure_is_summarised throttled_world (VStr "i-123")
             throttled).
    right. exists sample_inventory, (VStr "t3.micro").
    repeat split; reflexivity.
Defined.

Lemma routing_by_api_path_witness :
  (calls_of (lambda_handler (sample_world [])
               (sample_event "/get_ec2_cpu_utilization" sample_body))
   = calls_of (get_ec2_cpu_utilization (sample_world []) (VStr "i-123")) /\
   inventory_lookups
     (calls_of (lambda_handler (sample_world [])
                  (sample_event "/get_ec2_cpu_utilization" sample_body)))
   = [Call_describe_instances (VList [VStr "i-123"])])
  /\
  run (lambda_handler (sample_world [])
         (sample_event "/resize_instance" sample_body))
  = (Raised (Exn "Exception" "Unsupported API path: /resize_instance"), []).
Proof.
  split.
  - apply (routing_by_api_path (sample_world [])
             (sample_event "/get_ec2_cpu_utilization" sample_body)
             (VStr "CostActions") (VStr "/get_ec2_cpu_utilization")
             eq_refl eq_refl); reflexivity.
  - apply (routing_by_api_path (sample_world [])
             (sample_event "/resize_instance" sample_body)
             (VStr "CostActions") (VStr "/resize_instance")
             eq_refl eq_refl).
    discriminate.
Defined.

Lemma envelope_echoes_request_witness :
  exists summary,
    result_of (get_ec2_cpu_utilization unknown_world (VStr "i-123"))
    = Ok summary /\
    result_of (lambda_handler unknown_world
                 (sample_event "/get_ec2_cpu_utilization" sample_body))
    = Ok (VDict
            [("response",
              VDict [("actionGroup", VStr "CostActions");
                     ("apiPath", VStr "/get_ec2_cpu_utilization");
                     ("httpMethod", VStr "POST");
                     ("httpStatusCode", VInt 200);
                     ("responseBody",
                      VDict [("application/json",
                              VDict [("body",
                                      VStr (Json.dumps summary))])])])]).
Proof.
  apply (envelope_echoes_request unknown_world
           (sample_event "/get_ec2_cpu_utilization" sample_body)
           (VStr "CostActions") (VStr "POST") (VStr "i-123"));
    reflexivity.
Defined.



Lemma missing_instance_id_reaches_resolver_witness :
  inventory_lookups
    (calls_of (lambda_handler unknown_world
                 (sample_event "/get_ec2_cpu_utilization" "{}")))
  = [Call_describe_instances (VList [VNone])]
  /\
  result_of (lambda_handler unknown_world
               (sample_event "/get_ec2_cpu_utilization" "{}"))
  = Ok (envelope (VStr "CostActions") (VStr "/get_ec2_cpu_utilization")
          (VStr "POST")
          (Json.dumps
             (VDict [("instance_id", VNone);
                     ("error", VStr (exn_text not_found));
                     ("message", VStr (failure_message VNone))]))).
Proof.
  pose proof (missing_instance_id_reaches_resolver unknown_world
                (sample_event "/get_ec2_cpu_utilization" "{}")
                (VStr "CostActions") (VStr "POST") (VStr "{}") []
                eq_refl eq_refl eq_refl eq_refl eq_refl eq_refl) as [H1 H2].
  split; [exact H1 | exact (H2 not_found eq_refl)].
Defined.

Lemma malformed_event_raises_witness :
  (exists e,
      result_of (lambda_handler (sample_world [])
                   (VDict [("actionGroup", VStr "CostActions");
                           ("apiPath", VStr "/get_ec2_cpu_utilization")]))
      = Raised e)
  /\
  (exists e,
      result_of (lambda_handler (sample_world [])
                   (sample_event "/get_ec2_cpu_utilization" "{instance_id}"))
      = Raised e).
Proof.
  split.
  - apply (malformed_event_raises (sample_world [])
             [("actionGroup", VStr "CostActions");
              ("apiPath", VStr "/get_ec2_cpu_utilization")]).
    right. right. left. reflexivity.
  - apply (malformed_event_raises (sample_world [])
             (sample_fields "/get_ec2_cpu_utilization" "{instance_id}")).
    right. right. right. right.
    eexists _, _. split; reflexivity.
Defined.

(** ** The scenarios of the specification *)

(** Three hourly averages 10, 20 and 30 of a t3.micro. *)
Example scenario_three_buckets :
  result_of (get_ec2_cpu_utilization (sample_world [10; 20; 30]%float)
               (VStr "i-123"))
  = Ok (VDict
          [("instance_id", VStr "i-123");
           ("instance_type", VStr "t3.micro");
           ("average_cpu_utilization_24h", VFloat 20);
           ("message",
            VStr "Successfully retrieved data for i-123. Average CPU: 20.0%. Current Type: t3.micro")]).
Proof. vm_compute. reflexivity. Qed.

(** Rounding each bucket first would give another value. *)
Example per_bucket_rounding_differs :
  PyFloat.round2 (arithmetic_mean [0.125; 0.125; 0.5]%float) = 0.25%float /\
  PrimFloat.eqb
    (arithmetic_mean (map PyFloat.round2 [0.125; 0.125; 0.5]%float))
    0.25%float = false.
Proof. split; vm_compute; reflexivity. Qed.

(** The whole handler on the three buckets. *)
Example scenario_handler :
  result_of (lambda_handler (sample_world [10; 20; 30]%float)
               (sample_event "/get_ec2_cpu_utilization" sample_body))
  = Ok (envelope (VStr "CostActions") (VStr "/get_ec2_cpu_utilization")
          (VStr "POST")
          (Json.dumps
             (success_summary (VStr "i-123") (VStr "t3.micro") (VFloat 20)))).
Proof. vm_compute. reflexivity. Qed.

(** An instance the inventory does not know. *)
Example scenario_unknown_instance :
  result_of (get_ec2_cpu_utilization unknown_world (VStr "i-999"))
  = Ok (VDict
          [("instance_id", VStr "i-999");
           ("error", VStr (exn_text not_found));
           ("message",
            VStr "Failed to retrieve data for i-999. Check instance ID or permissions.")]).
Proof. vm_compute. reflexivity. Qed.

(** * More of what the two functions do *)

(** ** The calls of a run (lines 17 to 62) *)

Lemma resolver_cases (w : world) (instance_id : value) :
  (exists e,
      run (get_ec2_cpu_utilization w instance_id)
      = (Ok (failure_summary instance_id e),
         [Call_describe_instances (VList [instance_id]);
          Call_print (error_line instance_id e)]) /\
      (ec2_describe_instances w (VList [instance_id]) = Raised e \/
       exists resp,
         ec2_describe_instances w (VList [instance_id]) = Ok resp /\
         instance_type_of resp = Raised e))
  \/
  (exists e resp ty,
      run (get_ec2_cpu_utilization w instance_id)
      = (Ok (failure_summary instance_id e),
         (full_trace w instance_id
            ++ [Call_print (error_line instance_id e)])%list) /\
      ec2_describe_instances w (VList [instance_id]) = Ok resp /\
      instance_type_of resp = Ok ty)
  \/
  (exists resp ty cw rounded,
      run (get_ec2_cpu_utilization w instance_id)
      = (Ok (success_summary instance_id ty rounded),
         full_trace w instance_id) /\
      ec2_describe_instances w (VList [instance_id]) = Ok resp /\
      instance_type_of resp = Ok ty /\
      cloudwatch_get_metric_statistics w (the_query w instance_id) = Ok cw /\
      (data_points <-- method_get cw "Datapoints" (VList []) ;;
       cpu_average <-- cpu_average_of data_points ;;
       py_round2 cpu_average) = Ok rounded).
Proof.
  destruct (resolver_runs w instance_id) as (o & calls & Hr & E).
  rewrite E. destruct Hr.
  - left. exists e. split; [reflexivity | now left].
  - left. exists e. split; [reflexivity | right; eauto].
  - right. left. exists e, resp, ty. repeat split; auto.
  - right. left. exists e, resp, ty. repeat split; auto.
  - right. right. exists resp, ty, cw, rounded. repeat split; auto.
Qed.

(** X1: whenever a run of the resolver asks the metrics client, it asks
    for the Average of AWS/EC2 CPUUtilization of that instance id, in
    periods of 3600 seconds, over the window that ends at the clock's time
    and starts exactly 24 hours before. *)
Theorem metrics_query_is_fixed
  (w : world) (instance_id : value) (q : metric_query) :
  In (Call_get_metric_statistics q)
     (calls_of (get_ec2_cpu_utilization w instance_id)) ->
  Namespace q = "AWS/EC2" /\
  MetricName q = "CPUUtilization" /\
  Dimensions q
  = VList [VDict [("Name", VStr "InstanceId"); ("Value", instance_id)]] /\
  Period q = 3600 /\
  Statistics q = ["Average"] /\
  EndTime q = datetime_now w /\
  EndTime q - StartTime q = 86400000000.
Proof.
  intros H. unfold calls_of in H.
  assert (q = the_query w instance_id) as ->.
  { destruct (resolver_cases w instance_id)
      as [(e & E & _) | [(e & resp & ty & E & _) | (resp & ty & cw & r & E & _)]];
      rewrite E in H; simpl in H;
      repeat (destruct H as [H | H]; try discriminate; try contradiction);
      now injection H. }
  unfold the_query, cpu_query, hours_24. simpl. repeat split. lia.
Qed.

(** X2: when the inventory raises, or its response has no type at
    [Reservations][0][Instances][0], the run is one inventory call and one
    printed line: the clock is not read and the metrics client is not
    called. *)
Theorem no_type_no_metrics (w : world) (instance_id : value) (e : exn) :
  ec2_describe_instances w (VList [instance_id]) = Raised e \/
  (exists resp,
      ec2_describe_instances w (VList [instance_id]) = Ok resp /\
      instance_type_of resp = Raised e) ->
  run (get_ec2_cpu_utilization w instance_id)
  = (Ok (failure_summary instance_id e),
     [Call_describe_instances (VList [instance_id]);
      Call_print ("Error retrieving data for " ++ py_str instance_id ++ ": "
                  ++ exn_text e)]).
Proof.
  intros [H | (resp & H1 & H2)].
  - rewrite (resolver_run_is w instance_id (Raised e)
               [Call_describe_instances (VList [instance_id])]);
      [reflexivity | now apply Run_describe_raises].
  - rewrite (resolver_run_is w instance_id (Raised e)
               [Call_describe_instances (VList [instance_id])]);
      [reflexivity | now apply Run_no_type with resp].
Qed.

(** X3: a run of the resolver prints exactly when it returns the failure
    summary, once, and the line it prints ends with the text that the
    summary carries as error; a run that returns the success summary
    prints nothing. *)
Theorem failure_is_printed_once (w : world) (instance_id : value) :
  (exists e,
      result_of (get_ec2_cpu_utilization w instance_id)
      = Ok (failure_summary instance_id e) /\
      printed (calls_of (get_ec2_cpu_utilization w instance_id))
      = [Call_print ("Error retrieving data for " ++ py_str instance_id
                     ++ ": " ++ exn_text e)])
  \/
  (exists ty rounded,
      result_of (get_ec2_cpu_utilization w instance_id)
      = Ok (success_summary instance_id ty rounded) /\
      printed (calls_of (get_ec2_cpu_utilization w instance_id)) = []).
Proof.
  unfold result_of, calls_of.
  destruct (resolver_cases w instance_id)
    as [(e & E & _) | [(e & resp & ty & E & _) | (resp & ty & cw & r & E & _)]];
    rewrite E.
  - left. exists e. split; reflexivity.
  - left. exists e. split; reflexivity.
  - right. exists ty, r. split; reflexivity.
Qed.

(** X4: the success summary is returned only when both clients answered:
    the inventory response had a type, the metrics client returned, and the
    run made exactly the three calls, in the order inventory, clock,
    metrics. *)
Theorem success_needs_both (w : world) (instance_id summary : value) :
  result_of (get_ec2_cpu_utilization w instance_id) = Ok summary ->
  keys_of summary = success_keys ->
  (exists resp ty cw,
      ec2_describe_instances w (VList [instance_id]) = Ok resp /\
      instance_type_of resp = Ok ty /\
      cloudwatch_get_metric_statistics w (the_query w instance_id) = Ok cw /\
      subscript_key summary "instance_type" = Ok ty) /\
  calls_of (get_ec2_cpu_utilization w instance_id)
  = [Call_describe_instances (VList [instance_id]);
     Call_now;
     Call_get_metric_statistics (the_query w instance_id)].
Proof.
  unfold result_of, calls_of. intros H K.
  destruct (resolver_cases w instance_id)
    as [(e & E & _) | [(e & resp & ty & E & _)
                      | (resp & ty & cw & r & E & H1 & H2 & H3 & _)]];
    rewrite E in *; simpl in H; injection H as <-; try discriminate.
  split; [|reflexivity]. exists resp, ty, cw. repeat split; auto.
Qed.

(** ** The descriptor and the datapoints: missing keys (lines 24 and 45) *)

(** X5: when the inventory response lacks Reservations, or its first
    reservation lacks Instances, or that one's first record lacks
    InstanceType, the resolver returns the failure summary of the KeyError
    that names the missing key. *)
Theorem missing_descriptor_key
  (w : world) (instance_id : value) (d : list (string * value))
  (k : string) :
  ec2_describe_instances w (VList [instance_id]) = Ok (VDict d) ->
  (k = "Reservations" /\ dict_lookup "Reservations" d = None) \/
  (exists r0 rs,
      dict_lookup "Reservations" d = Some (VList (VDict r0 :: rs)) /\
      ((k = "Instances" /\ dict_lookup "Instances" r0 = None) \/
       (exists i0 more,
           dict_lookup "Instances" r0 = Some (VList (VDict i0 :: more)) /\
           k = "InstanceType" /\ dict_lookup "InstanceType" i0 = None))) ->
  result_of (get_ec2_cpu_utilization w instance_id)
  = Ok (VDict [("instance_id", instance_id);
               ("error", VStr ("'" ++ k ++ "'"));
               ("message", VStr (failure_message instance_id))]).
Proof.
  intros Hd Hk.
  assert (instance_type_of (VDict d)
          = Raised (Exn "KeyError" ("'" ++ k ++ "'"))) as Ht.
  { unfold instance_type_of. cbn [subscript_key].
    destruct Hk as [[-> H] | (r0 & rs & H1 & [[-> H] | (i0 & more & H2 & -> & H)])].
    - now rewrite H.
    - rewrite H1. cbn. now rewrite H.
    - rewrite H1. cbn. rewrite H2. cbn. now rewrite H. }
  unfold result_of.
  rewrite (resolver_run_is w instance_id
             (Raised (Exn "KeyError" ("'" ++ k ++ "'")))
             [Call_describe_instances (VList [instance_id])]);
    [reflexivity | now apply Run_no_type with (VDict d)].
Qed.

Lemma sum_over_prefix (good : list value) (xs : list float) :
  Forall2 has_average good xs ->
  forall acc tail,
    acc = VInt 0 \/ (exists f, acc = VFloat f) ->
    exists acc',
      (acc' = VInt 0 \/ exists f, acc' = VFloat f) /\
      sum_of_averages (good ++ tail)%list acc = sum_of_averages tail acc'.
Proof.
  induction 1 as [|p x good xs (d & -> & Hx) _ IH]; intros acc tail Hacc.
  - exists acc. split; [exact Hacc | reflexivity].
  - cbn [app sum_of_averages subscript_key]. rewrite Hx. cbn [and_then].
    destruct Hacc as [-> | (f & ->)].
    + cbn [py_add add_int]. rewrite PyFloat_of_int_zero. cbn [and_then].
      apply IH. right. eauto.
    + cbn [py_add and_then]. apply IH. right. eauto.
Qed.

(** X6: when a type was found and the metrics client returns datapoints of
    which one is a dict without Average, the ones before it having float
    averages, the resolver returns the failure summary of the KeyError
    'Average': one bad datapoint fails the whole query. *)
Theorem datapoint_without_average
  (w : world) (instance_id resp ty cw : value)
  (good rest : list value) (xs : list float) (d : list (string * value)) :
  ec2_describe_instances w (VList [instance_id]) = Ok resp ->
  instance_type_of resp = Ok ty ->
  cloudwatch_get_metric_statistics w (the_query w instance_id) = Ok cw ->
  method_get cw "Datapoints" (VList [])
  = Ok (VList (good ++ VDict d :: rest)%list) ->
  Forall2 has_average good xs ->
  dict_lookup "Average" d = None ->
  result_of (get_ec2_cpu_utilization w instance_id)
  = Ok (VDict [("instance_id", instance_id);
               ("error", VStr "'Average'");
               ("message", VStr (failure_message instance_id))]).
Proof.
  intros Hd Ht Hc Hg Ha Hk. unfold result_of.
  rewrite (resolver_run_is w instance_id
             (Raised (Exn "KeyError" "'Average'"))
             (full_trace w instance_id)); [reflexivity|].
  apply Run_average_raises with resp ty cw; auto.
  rewrite Hg. cbn [and_then]. unfold cpu_average_of.
  assert (truthy (VList (good ++ VDict d :: rest)%list) = true) as ->
    by now destruct good.
  cbn [py_iter and_then].
  destruct (sum_over_prefix good xs Ha (VInt 0) (VDict d :: rest)
              ltac:(now left)) as (acc & _ & ->).
  cbn [sum_of_averages subscript_key]. now rewrite Hk.
Qed.

(** X7: when a type was found and the metrics client answers with a
    Datapoints value that is false in a condition (None, 0, an empty str,
    list or dict), the resolver returns the success summary with the
    average 0.0. *)
Theorem falsy_datapoints_average_zero
  (w : world) (instance_id resp ty cw data_points : value) :
  ec2_describe_instances w (VList [instance_id]) = Ok resp ->
  instance_type_of resp = Ok ty ->
  cloudwatch_get_metric_statistics w (the_query w instance_id) = Ok cw ->
  method_get cw "Datapoints" (VList []) = Ok data_points ->
  truthy data_points = false ->
  result_of (get_ec2_cpu_utilization w instance_id)
  = Ok (success_summary instance_id ty (VFloat 0)).
Proof.
  intros Hd Ht Hc Hg Hf. unfold result_of.
  rewrite (resolver_run_is w instance_id
             (Ok (success_summary instance_id ty (VFloat 0)))
             (full_trace w instance_id)); [reflexivity|].
  apply Run_success with resp cw; auto.
  rewrite Hg. cbn [and_then]. unfold cpu_average_of. rewrite Hf.
  reflexivity.
Qed.

Lemma truediv_is_float (a b v : value) :
  py_truediv a b = Ok v -> exists f, v = VFloat f.
Proof.
  unfold py_truediv, div_float, div_int, float_of_int, as_int.
  intros H.
  repeat match type of H with
    | match ?x with _ => _ end = _ => destruct x eqn:?
    | (if ?x then _ else _) = _ => destruct x eqn:?
    end; try discriminate; injection H as <-; eauto.
Qed.

Lemma cpu_average_is_float (data_points avg : value) :
  cpu_average_of data_points = Ok avg -> exists f, avg = VFloat f.
Proof.
  unfold cpu_average_of. destruct (truthy data_points).
  - destruct (py_iter data_points) as [items|]; [|discriminate].
    cbn [and_then].
    destruct (sum_of_averages items (VInt 0)) as [total|]; [|discriminate].
    cbn [and_then].
    destruct (py_len data_points) as [n|]; [|discriminate].
    cbn [and_then]. apply truediv_is_float.
  - intros [= <-]. eauto.
Qed.

(** X8: the average a summary carries is always a float, the result of
    [round(f, 2)] on a float [f], whatever the types of the Average values
    the metrics client returned (ints and bools included). *)
Theorem average_is_a_rounded_float
  (w : world) (instance_id summary avg : value) :
  result_of (get_ec2_cpu_utilization w instance_id) = Ok summary ->
  subscript_key summary "average_cpu_utilization_24h" = Ok avg ->
  exists f, avg = VFloat (PyFloat.round2 f).
Proof.
  unfold result_of. intros H K.
  destruct (resolver_cases w instance_id)
    as [(e & E & _) | [(e & resp & ty & E & _)
                      | (resp & ty & cw & r & E & _ & _ & _ & Hc)]];
    rewrite E in H; simpl in H; injection H as <-; try discriminate.
  simpl in K. injection K as <-.
  destruct (method_get cw "Datapoints" (VList [])) as [dps|]; [|discriminate].
  cbn [and_then] in Hc.
  destruct (cpu_average_of dps) as [a|] eqn:Ea; [|discriminate].
  cbn [and_then] in Hc.
  destruct (cpu_average_is_float _ _ Ea) as (f & ->).
  simpl in Hc. injection Hc as <-. eauto.
Qed.

(** ** The handler: what it returns and what it calls (lines 65 to 91) *)

(** X9: whenever the handler returns, the event had an actionGroup, the
    apiPath "/get_ec2_cpu_utilization", an httpMethod and a body that
    yields an instance id, and what it returns is the envelope around the
    JSON text of the resolver's summary for that id, with httpStatusCode
    200: no other status is ever returned. *)
Theorem returned_envelope (w : world) (event v : value) :
  result_of (lambda_handler w event) = Ok v ->
  exists action http_method instance_id summary,
    subscript_key event "actionGroup" = Ok action /\
    subscript_key event "apiPath" = Ok (VStr "/get_ec2_cpu_utilization") /\
    subscript_key event "httpMethod" = Ok http_method /\
    instance_id_of event = Ok instance_id /\
    result_of (get_ec2_cpu_utilization w instance_id) = Ok summary /\
    v = envelope action (VStr "/get_ec2_cpu_utilization") http_method
          (Json.dumps summary) /\
    dict_path ["response"; "httpStatusCode"] v = Some (VInt 200).
Proof.
  unfold result_of. rewrite handler_runs. unfold handler_steps.
  destruct (subscript_key event "actionGroup") as [action|]; [|discriminate].
  destruct (subscript_key event "apiPath") as [api_path|]; [|discriminate].
  destruct (eq_str api_path supported_path) eqn:Ep; [|discriminate].
  apply eq_str_true in Ep as ->.
  destruct (instance_id_of event) as [iid|]; [|discriminate].
  destruct (run (get_ec2_cpu_utilization w iid)) as [[summary|] calls] eqn:R;
    [|discriminate].
  destruct (subscript_key event "httpMethod") as [m|]; [|discriminate].
  simpl. intros [= <-]. exists action, m, iid, summary.
  repeat split; try reflexivity. now rewrite R.
Qed.

(** X10: for every event, the handler makes either no call at all or
    exactly the calls of one run of the resolver on the id in the body; so
    it asks the inventory at most once. *)
Theorem handler_calls_one_resolver (w : world) (event : value) :
  (calls_of (lambda_handler w event) = [] \/
   exists instance_id,
     instance_id_of event = Ok instance_id /\
     calls_of (lambda_handler w event)
     = calls_of (get_ec2_cpu_utilization w instance_id)) /\
  (List.length (inventory_lookups (calls_of (lambda_handler w event)))
   <= 1)%nat.
Proof.
  assert (calls_of (lambda_handler w event) = [] \/
          exists instance_id,
            instance_id_of event = Ok instance_id /\
            calls_of (lambda_handler w event)
            = calls_of (get_ec2_cpu_utilization w instance_id)) as H.
  { unfold calls_of. rewrite handler_runs. unfold handler_steps.
    destruct (subscript_key event "actionGroup"); [|now left].
    destruct (subscript_key event "apiPath") as [api_path|]; [|now left].
    destruct (eq_str api_path supported_path); [|now left].
    destruct (instance_id_of event) as [iid|]; [|now left].
    right. exists iid. split; [reflexivity|].
    destruct (run (get_ec2_cpu_utilization w iid)) as [[summary|] calls];
      [|reflexivity].
    destruct (subscript_key event "httpMethod"); reflexivity. }
  split; [exact H|].
  destruct H as [-> | (iid & _ & ->)]; [simpl; lia|].
  rewrite resolver_lookups. simpl. lia.
Qed.

(** X11: an event with the supported apiPath and a body that yields an
    instance id, but no httpMethod, makes the handler raise the KeyError
    'httpMethod' only after the resolver has run: the inventory has been
    asked about the id by then. *)
Theorem missing_method_after_resolver
  (w : world) (d : list (string * value)) (action instance_id : value) :
  subscript_key (VDict d) "actionGroup" = Ok action ->
  subscript_key (VDict d) "apiPath" = Ok (VStr "/get_ec2_cpu_utilization") ->
  instance_id_of (VDict d) = Ok instance_id ->
  dict_lookup "httpMethod" d = None ->
  result_of (lambda_handler w (VDict d))
  = Raised (Exn "KeyError" "'httpMethod'") /\
  calls_of (lambda_handler w (VDict d))
  = calls_of (get_ec2_cpu_utilization w instance_id) /\
  inventory_lookups (calls_of (lambda_handler w (VDict d)))
  = [Call_describe_instances (VList [instance_id])].
Proof.
  intros Ha Hp Hi Hm.
  pose proof (handler_calls w (VDict d) action instance_id Ha Hp Hi) as E.
  split; [|split; [exact E | rewrite E; apply resolver_lookups]].
  unfold result_of. rewrite handler_runs. unfold handler_steps.
  rewrite Ha, Hp. cbn [eq_str]. unfold supported_path.
  rewrite String.eqb_refl, Hi.
  destruct (resolver_returns w instance_id) as (summary & calls & R).
  rewrite R. cbn [subscript_key]. now rewrite Hm.
Qed.

(** X12: when the body is JSON text of something that is not an object (a
    list, a number, a str, true, false or null), the handler raises the
    AttributeError of [.get] and never calls the resolver. *)
Theorem body_not_an_object
  (w : world) (event action body parameters : value) :
  subscript_key event "actionGroup" = Ok action ->
  subscript_key event "apiPath" = Ok (VStr "/get_ec2_cpu_utilization") ->
  request_body_of event = Ok body ->
  Json.loads body = Ok parameters ->
  (forall d, parameters <> VDict d) ->
  run (lambda_handler w event)
  = (Raised (Exn "AttributeError"
               ("'" ++ type_name parameters
                ++ "' object has no attribute 'get'")), []).
Proof.
  intros Ha Hp Hb Hl Hn. rewrite handler_runs. unfold handler_steps.
  rewrite Ha, Hp. cbn [eq_str]. unfold supported_path.
  rewrite String.eqb_refl. unfold instance_id_of.
  rewrite Hb. cbn [and_then]. rewrite Hl. cbn [and_then].
  destruct parameters; try reflexivity.
  now destruct (Hn d).
Qed.

(** X13: when the body is the JSON text [json.dumps] writes for a dict of
    parameters (distinct keys, floats that read back), the id the handler
    hands to the resolver is the value of instance_id in that dict, of
    whatever type, and None when the dict has no such key. *)
Theorem request_id_reads_back
  (event : value) (parameters : list (string * value)) :
  request_body_of event = Ok (VStr (Json.dumps (VDict parameters))) ->
  json_exact (VDict parameters) ->
  instance_id_of event = Ok (get_or_none "instance_id" parameters).
Proof.
  intros Hb He. unfold instance_id_of. rewrite Hb. cbn [and_then].
  rewrite (loads_dumps _ He). cbn [and_then method_get].
  unfold get_or_none. now destruct (dict_lookup "instance_id" parameters).
Qed.

(** X14: for a dispatched request, the str under response, responseBody,
    application/json, body of the returned envelope is read back by
    [json.loads] as the very summary the resolver returned, when that
    summary has distinct keys and floats that read back. *)
Theorem response_body_decodes
  (w : world) (event action http_method instance_id summary : value) :
  subscript_key event "actionGroup" = Ok action ->
  subscript_key event "apiPath" = Ok (VStr "/get_ec2_cpu_utilization") ->
  subscript_key event "httpMethod" = Ok http_method ->
  instance_id_of event = Ok instance_id ->
  result_of (get_ec2_cpu_utilization w instance_id) = Ok summary ->
  json_exact summary ->
  exists v body,
    result_of (lambda_handler w event) = Ok v /\
    dict_path ["response"; "responseBody"; "application/json"; "body"] v
    = Some body /\
    Json.loads body = Ok summary.
Proof.
  intros Ha Hp Hm Hi Hr He.
  exists (envelope action (VStr "/get_ec2_cpu_utilization") http_method
            (Json.dumps summary)), (VStr (Json.dumps summary)).
  split; [|split; [reflexivity | now apply loads_dumps]].
  unfold result_of in *. rewrite handler_runs. unfold handler_steps.
  rewrite Ha, Hp. cbn [eq_str]. unfold supported_path.
  rewrite String.eqb_refl, Hi.
  destruct (run (get_ec2_cpu_utilization w instance_id)) as [o calls].
  simpl in Hr. subst o. now rewrite Hm.
Qed.

(** ** The further properties on sample runs *)

Lemma metrics_query_is_fixed_witness :
  Namespace (the_query (sample_world [10]%float) (VStr "i-123")) = "AWS/EC2" /\
  MetricName (the_query (sample_world [10]%float) (VStr "i-123"))
  = "CPUUtilization" /\
  Dimensions (the_query (sample_world [10]%float) (VStr "i-123"))
  = VList [VDict [("Name", VStr "InstanceId"); ("Value", VStr "i-123")]] /\
  Period (the_query (sample_world [10]%float) (VStr "i-123")) = 3600 /\
  Statistics (the_query (sample_world [10]%float) (VStr "i-123"))
  = ["Average"] /\
  EndTime (the_query (sample_world [10]%float) (VStr "i-123"))
  = sample_clock /\
  EndTime (the_query (sample_world [10]%float) (VStr "i-123"))
  - StartTime (the_query (sample_world [10]%float) (VStr "i-123"))
  = 86400000000.
Proof.
  apply (metrics_query_is_fixed (sample_world [10]%float) (VStr "i-123")
           (the_query (sample_world [10]%float) (VStr "i-123"))).
  right. right. left. reflexivity.
Defined.

Lemma no_type_no_metrics_witness :
  run (get_ec2_cpu_utilization unknown_world (VStr "i-999"))
  = (Ok (failure_summary (VStr "i-999") not_found),
     [Call_describe_instances (VList [VStr "i-999"]);
      Call_print ("Error retrieving data for " ++ py_str (VStr "i-999")
                  ++ ": " ++ exn_text not_found)]).
Proof.
  apply (no_type_no_metrics unknown_world (VStr "i-999") not_found).
  left. reflexivity.
Defined.

Lemma success_needs_both_witness :
  (exists resp ty cw,
      ec2_describe_instances (sample_world [10; 20; 30]%float)
        (VList [VStr "i-123"]) = Ok resp /\
      instance_type_of resp = Ok ty /\
      cloudwatch_get_metric_statistics (sample_world [10; 20; 30]%float)
        (the_query (sample_world [10; 20; 30]%float) (VStr "i-123")) = Ok cw /\
      subscript_key
        (success_summary (VStr "i-123") (VStr "t3.micro") (VFloat 20))
        "instance_type" = Ok ty) /\
  calls_of (get_ec2_cpu_utilization (sample_world [10; 20; 30]%float)
              (VStr "i-123"))
  = [Call_describe_instances (VList [VStr "i-123"]);
     Call_now;
     Call_get_metric_statistics
       (the_query (sample_world [10; 20; 30]%float) (VStr "i-123"))].
Proof.
  apply (success_needs_both (sample_world [10; 20; 30]%float) (VStr "i-123")
           (success_summary (VStr "i-123") (VStr "t3.micro") (VFloat 20)));
    reflexivity.
Defined.

Lemma missing_descriptor_key_witness :
  result_of (get_ec2_cpu_utilization typeless_world (VStr "i-123"))
  = Ok (VDict [("instance_id", VStr "i-123");
               ("error", VStr ("'" ++ "InstanceType" ++ "'"));
               ("message", VStr (failure_message (VStr "i-123")))]).
Proof.
  apply (missing_descriptor_key typeless_world (VStr "i-123")
           [("Reservations",
             VList [VDict [("Instances",
                            VList [VDict [("InstanceId", VStr "i-123")]])]])]
           "InstanceType" eq_refl).
  right. eexists _, _. split; [reflexivity|].
  right. eexists _, _. repeat split; reflexivity.
Defined.

Lemma datapoint_without_average_witness :
  result_of (get_ec2_cpu_utilization gappy_world (VStr "i-123"))
  = Ok (VDict [("instance_id", VStr "i-123");
               ("error", VStr "'Average'");
               ("message", VStr (failure_message (VStr "i-123")))]).
Proof.
  apply (datapoint_without_average gappy_world (VStr "i-123")
           sample_inventory (VStr "t3.micro")
           (VDict [("Datapoints",
                    VList [datapoint 10;
                           VDict [("Timestamp",
                                   VStr "2024-05-01 11:00:00+00:00")];
                           datapoint 30])])
           [datapoint 10] [datapoint 30] [10%float]
           [("Timestamp", VStr "2024-05-01 11:00:00+00:00")]);
    try reflexivity.
  repeat constructor. eexists. split; reflexivity.
Defined.

Lemma falsy_datapoints_average_zero_witness :
  result_of (get_ec2_cpu_utilization null_world (VStr "i-123"))
  = Ok (success_summary (VStr "i-123") (VStr "t3.micro") (VFloat 0)).
Proof.
  apply (falsy_datapoints_average_zero null_world (VStr "i-123")
           sample_inventory (VStr "t3.micro")
           (VDict [("Label", VStr "CPUUtilization"); ("Datapoints", VNone)])
           VNone); reflexivity.
Defined.

Lemma average_is_a_rounded_float_witness :
  exists f, VFloat 20 = VFloat (PyFloat.round2 f).
Proof.
  apply (average_is_a_rounded_float (sample_world [10; 20; 30]%float)
           (VStr "i-123")
           (success_summary (VStr "i-123") (VStr "t3.micro") (VFloat 20))
           (VFloat 20)); reflexivity.
Defined.

Lemma returned_envelope_witness :
  exists action http_method instance_id summary,
    subscript_key (sample_event "/get_ec2_cpu_utilization" sample_body)
      "actionGroup" = Ok action /\
    subscript_key (sample_event "/get_ec2_cpu_utilization" sample_body)
      "apiPath" = Ok (VStr "/get_ec2_cpu_utilization") /\
    subscript_key (sample_event "/get_ec2_cpu_utilization" sample_body)
      "httpMethod" = Ok http_method /\
    instance_id_of (sample_event "/get_ec2_cpu_utilization" sample_body)
    = Ok instance_id /\
    result_of (get_ec2_cpu_utilization unknown_world instance_id)
    = Ok summary /\
    envelope (VStr "CostActions") (VStr "/get_ec2_cpu_utilization")
      (VStr "POST") (Json.dumps (failure_summary (VStr "i-123") not_found))
    = envelope action (VStr "/get_ec2_cpu_utilization") http_method
        (Json.dumps summary) /\
    dict_path ["response"; "httpStatusCode"]
      (envelope (VStr "CostActions") (VStr "/get_ec2_cpu_utilization")
         (VStr "POST")
         (Json.dumps (failure_summary (VStr "i-123") not_found)))
    = Some (VInt 200).
Proof.
  apply (returned_envelope unknown_world
           (sample_event "/get_ec2_cpu_utilization" sample_body)
           (envelope (VStr "CostActions") (VStr "/get_ec2_cpu_utilization")
              (VStr "POST")
              (Json.dumps (failure_summary (VStr "i-123") not_found)))).
  reflexivity.
Defined.

Lemma missing_method_after_resolver_witness :
  result_of (lambda_handler unknown_world (VDict methodless_fields))
  = Raised (Exn "KeyError" "'httpMethod'") /\
  calls_of (lambda_handler unknown_world (VDict methodless_fields))
  = calls_of (get_ec2_cpu_utilization unknown_world (VStr "i-123")) /\
  inventory_lookups
    (calls_of (lambda_handler unknown_world (VDict methodless_fields)))
  = [Call_describe_instances (VList [VStr "i-123"])].
Proof.
  apply (missing_method_after_resolver unknown_world methodless_fields
           (VStr "CostActions") (VStr "i-123")); reflexivity.
Defined.

Lemma body_not_an_object_witness :
  run (lambda_handler (sample_world [])
         (sample_event "/get_ec2_cpu_utilization" "[1, 2]"))
  = (Raised (Exn "AttributeError"
               ("'" ++ type_name (VList [VInt 1; VInt 2])
                ++ "' object has no attribute 'get'")), []).
Proof.
  apply (body_not_an_object (sample_world [])
           (sample_event "/get_ec2_cpu_utilization" "[1, 2]")
           (VStr "CostActions") (VStr "[1, 2]") (VList [VInt 1; VInt 2]));
    try reflexivity.
  intros d. discriminate.
Defined.

Lemma request_id_reads_back_witness :
  instance_id_of (sample_event "/get_ec2_cpu_utilization" sample_body)
  = Ok (get_or_none "instance_id" [("instance_id", VStr "i-123")]).
Proof.
  apply (request_id_reads_back
           (sample_event "/get_ec2_cpu_utilization" sample_body)
           [("instance_id", VStr "i-123")]).
  - reflexivity.
  - simpl. split; [|tauto].
    constructor; [simpl; tauto | constructor].
Defined.

Lemma response_body_decodes_witness :
  exists v body,
    result_of (lambda_handler (sample_world [10; 20; 30]%float)
                 (sample_event "/get_ec2_cpu_utilization" sample_body))
    = Ok v /\
    dict_path ["response"; "responseBody"; "application/json"; "body"] v
    = Some body /\
    Json.loads body
    = Ok (success_summary (VStr "i-123") (VStr "t3.micro") (VFloat 20)).
Proof.
  apply (response_body_decodes (sample_world [10; 20; 30]%float)
           (sample_event "/get_ec2_cpu_utilization" sample_body)
           (VStr "CostActions") (VStr "POST") (VStr "i-123")
           (success_summary (VStr "i-123") (VStr "t3.micro") (VFloat 20)));
    try reflexivity.
  simpl. repeat split.
  repeat constructor; simpl; intuition discriminate.
Defined.
